(** * Email spoof detection: the detector, its rules and the domain helpers

    A shallow embedding of the Go packages [models] (models/email.go) and
    [detector] (detector/detector.go, detector/rules.go), with the pieces of
    the Go standard library they call ([strings], [net.LookupTXT]).

    Conventions.
    - A Go [string] is a byte sequence: Rocq's [string].
    - A Go [int] is a 64-bit two's complement integer: a [Z] kept in range
      by [wrap_int] after every addition.
    - A nil pointer is [None]; a Go map is a [gmap]; a slice is a [list].
    - A run-time panic (index out of range) is the [None] of [option].
    - [net.LookupTXT] is the only effect that matters for the result: a
      computation threads the list of names looked up so far, and the n-th
      lookup of the run is answered by a resolver that may answer each
      lookup differently.  [log.Printf] only writes to the standard error
      stream and is left out. *)

From Stdlib Require Import ZArith Ascii String List Permutation Lia.
From stdpp Require Import base option list strings gmap.

Local Open Scope string_scope.
Local Open Scope list_scope.
Local Open Scope Z_scope.

(** ** Package [strings] of the Go standard library *)

Module strings.

(** [strings.HasPrefix(s, prefix)]. *)
Definition HasPrefix (s pre : string) : bool := String.prefix pre s.

(** [strings.Contains(s, substr)]: [substr] starts at some offset of [s]. *)
Fixpoint Contains (s substr : string) : bool :=
  HasPrefix s substr ||
  match s with
  | EmptyString => false
  | String _ s' => Contains s' substr
  end.

(** Dropping the first [n] bytes, [s[n:]] for [n <= len(s)]. *)
Fixpoint skip (n : nat) (s : string) : string :=
  match n, s with
  | O, _ => s
  | S n', String _ s' => skip n' s'
  | S _, EmptyString => EmptyString
  end.

(** [strings.Replace(s, old, new, 1)]: the leftmost occurrence of [old]
    is replaced by [new]; [s] is returned unchanged when there is none.
    (An empty [old] matches at the beginning of [s].) *)
Fixpoint Replace1 (s old new : string) : string :=
  if HasPrefix s old then new +:+ skip (String.length old) s
  else match s with
       | EmptyString => EmptyString
       | String c s' => String c (Replace1 s' old new)
       end.

(** [strings.Split(s, sep)] for a separator of one byte: the pieces of
    [s] between the occurrences of [sep], one more than there are
    occurrences. *)
Fixpoint Split (s : string) (sep : ascii) : list string :=
  match s with
  | EmptyString => [EmptyString]
  | String c s' =>
      if Ascii.eqb c sep then EmptyString :: Split s' sep
      else match Split s' sep with
           | p :: ps => String c p :: ps
           | [] => [String c EmptyString]
           end
  end.

(** Number of occurrences of the byte [sep], [strings.Count(s, sep)]. *)
Fixpoint Count (s : string) (sep : ascii) : nat :=
  match s with
  | EmptyString => O
  | String c s' => ((if Ascii.eqb c sep then 1 else 0) + Count s' sep)%nat
  end.

(** [c < utf8.RuneSelf]. *)
Definition isASCIIbyte (c : ascii) : bool := (nat_of_ascii c <? 128)%nat.

Fixpoint isASCII (s : string) : bool :=
  match s with
  | EmptyString => true
  | String c s' => isASCIIbyte c && isASCII s'
  end.

(** ['A' <= c && c <= 'Z'] then [c += 'a' - 'A']. *)
Definition lowerByte (c : ascii) : ascii :=
  let n := nat_of_ascii c in
  if ((65 <=? n) && (n <=? 90))%nat then ascii_of_nat (n + 32) else c.

Fixpoint lowerASCII (s : string) : string :=
  match s with
  | EmptyString => EmptyString
  | String c s' => String (lowerByte c) (lowerASCII s')
  end.

(** [strings.ToLower(s)].  A string of ASCII bytes only is lowered byte
    by byte; any other string goes through
    [strings.Map(unicode.ToLower, s)], which depends on the Unicode case
    tables and is taken as the parameter [mapUnicodeLower]. *)
Definition ToLower (mapUnicodeLower : string → string) (s : string) : string :=
  if isASCII s then lowerASCII s else mapUnicodeLower s.

End strings.

(** ** Go's [int] *)

Definition int_min : Z := - 2 ^ 63.
Definition int_max : Z := 2 ^ 63 - 1.

(** Two's complement wrap-around of 64-bit signed arithmetic. *)
Definition wrap_int (z : Z) : Z := (z + 2 ^ 63) mod 2 ^ 64 - 2 ^ 63.

(** [a + b] on [int]. *)
Definition int_add (a b : Z) : Z := wrap_int (a + b).

(** [s[i]] on a slice: out of range is a run-time panic. *)
Definition index {A} (s : list A) (i : nat) : option A := s !! i.

(** ** Package [models] *)

Module models.

(** [mail.Address] of net/mail. *)
Record Address := mkAddress {
  Name : string;
  Addr : string   (* the field [Address] *)
}.

Record Email := mkEmail {
  From : option Address;
  ReplyTo : option Address;
  ReturnPath : string;
  MessageID : string;
  Subject : string;
  Body : string;
  Headers : gmap string (list string);
  RawContent : list Byte.byte
}.

Record AnalysisResult := mkAnalysisResult {
  IsSpoofed : bool;
  Reasons : list string;
  Score : Z
}.

(** [GetDomain]: the part after the single "@" of the address. *)
Definition GetDomain (address : option Address) : option string :=
  match address with
  | None => Some ""
  | Some a =>
      let parts := strings.Split (Addr a) "@" in
      if decide (length parts ≠ 2%nat) then Some ""
      else index parts 1
  end.

(** [GetHeaderValue]: the first value of a header field. *)
Definition GetHeaderValue (e : Email) (name : string) : option string :=
  match Headers e !! name with
  | None => Some ""
  | Some values =>
      if decide (length values = 0%nat) then Some ""
      else index values 0
  end.

(** [GetAllHeaderValues]: a missing key gives the nil slice. *)
Definition GetAllHeaderValues (e : Email) (name : string) : list string :=
  default [] (Headers e !! name).

(** [HasHeader]. *)
Definition HasHeader (e : Email) (name : string) : bool :=
  bool_decide (is_Some (Headers e !! name)).

End models.

(** ** Computations that look names up in the DNS *)

(** The names looked up so far, oldest first. *)
Definition Trace := list string.

(** A computation reads and extends the trace, or panics ([None]). *)
Definition M (A : Type) : Type := Trace → option (A * Trace).

#[global] Instance M_ret : MRet M := λ A a t, Some (a, t).
#[global] Instance M_bind : MBind M := λ A B f m t,
  match m t with
  | Some (a, t') => f a t'
  | None => None
  end.

(** A pure computation (one that can only return or panic) run inside [M]. *)
Definition liftP {A} (o : option A) : M A := λ t,
  match o with
  | Some a => Some (a, t)
  | None => None
  end.

Module detector.
Import models.

Section Detector.

(** The DNS seen by one run: [resolver n name] is the answer to the lookup
    of [name] when [n] lookups were made before it; [None] is a lookup
    error ([err != nil]), [Some records] the TXT records. *)
Variable resolver : nat → string → option (list string).

(** [strings.Map(unicode.ToLower, s)], see [strings.ToLower]. *)
Variable mapUnicodeLower : string → string.

(** The order in which [range commonDomains] yields the keys of the map:
    Go leaves it unspecified. *)
Variable rangeOrder : list string.

(** [net.LookupTXT(name)]. *)
Definition LookupTXT (name : string) : M (option (list string)) := λ t,
  Some (resolver (length t) name, (t ++ [name])%list).

Record Rule := mkRule {
  RuleName : string;       (* the field [Name] *)
  Description : string;
  Weight : Z;
  CheckFunc : Email → M (bool * string)
}.

(** *** detector/rules.go *)

Definition checkFromReplyToDomainMismatch (email : Email) : option (bool * string) :=
  match From email, ReplyTo email with
  | Some _, Some _ =>
      fromDomain ← GetDomain (From email);
      replyToDomain ← GetDomain (ReplyTo email);
      if bool_decide (fromDomain ≠ "") && bool_decide (replyToDomain ≠ "")
         && bool_decide (fromDomain ≠ replyToDomain)
      then Some (true, "From domain (" +:+ fromDomain +:+ ") doesn't match Reply-To domain ("
                         +:+ replyToDomain +:+ ")")
      else Some (false, "")
  | _, _ => Some (false, "")
  end.

Definition checkFromReturnPathDomainMismatch (email : Email) : option (bool * string) :=
  match From email with
  | None => Some (false, "")
  | Some _ =>
      if bool_decide (ReturnPath email = "") then Some (false, "")
      else
        fromDomain ← GetDomain (From email);
        let returnPathParts := strings.Split (ReturnPath email) "@" in
        if decide (length returnPathParts ≠ 2%nat) then Some (false, "")
        else
          returnPathDomain ← index returnPathParts 1;
          if bool_decide (fromDomain ≠ "") && bool_decide (returnPathDomain ≠ "")
             && bool_decide (fromDomain ≠ returnPathDomain)
          then Some (true, "From domain (" +:+ fromDomain
                             +:+ ") doesn't match Return-Path domain ("
                             +:+ returnPathDomain +:+ ")")
          else Some (false, "")
  end.

(** The loop [for _, record := range txtRecords] of [checkMissingSPF]:
    is there a record that starts with "v=spf1"? *)
Fixpoint hasSPFRecord (txtRecords : list string) : bool :=
  match txtRecords with
  | [] => false
  | record :: rest =>
      if strings.HasPrefix record "v=spf1" then true else hasSPFRecord rest
  end.

Definition checkMissingSPF (email : Email) : M (bool * string) :=
  match From email with
  | None => mret (false, "")
  | Some _ =>
      fromDomain ← liftP (GetDomain (From email));
      if bool_decide (fromDomain = "") then mret (false, "")
      else
        answer ← LookupTXT fromDomain;
        match answer with
        | None => mret (false, "")
        | Some txtRecords =>
            if hasSPFRecord txtRecords then mret (false, "")
            else mret (true, "Domain " +:+ fromDomain +:+ " doesn't have an SPF record")
        end
  end.

(** The loop [for _, typo := range typos]. *)
Fixpoint equalsOneOf (domain1 : string) (typos : list string) : bool :=
  match typos with
  | [] => false
  | typo :: rest =>
      if bool_decide (domain1 = typo) then true else equalsOneOf domain1 rest
  end.

Definition isSimilarDomain (domain1 domain2 : string) : bool :=
  if bool_decide (domain1 ≠ domain2)
     && strings.Contains domain1 (strings.Replace1 domain2 "." "")
  then true
  else
    let typos := [
      strings.Replace1 domain2 "." "-";
      strings.Replace1 domain2 "." "";
      "mail-" +:+ domain2;
      domain2 +:+ "-secure";
      strings.Replace1 domain2 "m" "rn"
    ] in
    equalsOneOf domain1 typos.

(** The keys of the map [commonDomains]. *)
Definition commonDomains : list string := [
  "gmail.com"; "yahoo.com"; "outlook.com"; "hotmail.com"; "microsoft.com";
  "apple.com"; "amazon.com"; "facebook.com"; "paypal.com"; "wellsfargo.com";
  "bankofamerica.com"; "chase.com"
].

(** The loop [for domain := range commonDomains], over the keys in the
    order the run yields them. *)
Fixpoint rangeCommonDomains (fromDomain : string) (keys : list string) : bool * string :=
  match keys with
  | [] => (false, "")
  | domain :: rest =>
      if bool_decide (fromDomain ≠ domain) && isSimilarDomain fromDomain domain
      then (true, "From domain (" +:+ fromDomain +:+ ") looks similar to " +:+ domain)
      else rangeCommonDomains fromDomain rest
  end.

Definition checkSuspiciousFromDomain (email : Email) : option (bool * string) :=
  match From email with
  | None => Some (false, "")
  | Some _ =>
      fromDomain ← GetDomain (From email);
      if bool_decide (fromDomain = "") then Some (false, "")
      else Some (rangeCommonDomains fromDomain rangeOrder)
  end.

Definition checkMultipleFromHeaders (email : Email) : option (bool * string) :=
  let fromHeaders := GetAllHeaderValues email "From" in
  if decide (1 < length fromHeaders)%nat
  then Some (true, "Email contains multiple From headers")
  else Some (false, "").

Definition suspiciousPatterns : list string :=
  ["unknown"; "localhost"; "127.0.0.1"; "192.168."; "10.0."; "172.16."].

(** The inner loop [for _, pattern := range suspiciousPatterns]: the
    first pattern the (lowered) header contains. *)
Fixpoint firstPattern (header : string) (patterns : list string) : option string :=
  match patterns with
  | [] => None
  | pattern :: rest =>
      if strings.Contains header pattern then Some pattern
      else firstPattern header rest
  end.

(** The outer loop [for _, header := range receivedHeaders]. *)
Fixpoint scanReceived (receivedHeaders : list string) : bool * string :=
  match receivedHeaders with
  | [] => (false, "")
  | header :: rest =>
      let header := strings.ToLower mapUnicodeLower header in
      match firstPattern header suspiciousPatterns with
      | Some pattern =>
          (true, "Suspicious pattern found in Received headers: " +:+ pattern)
      | None => scanReceived rest
      end
  end.

Definition checkSuspiciousReceivedChain (email : Email) : option (bool * string) :=
  let receivedHeaders := GetAllHeaderValues email "Received" in
  if decide (length receivedHeaders = 0%nat)
  then Some (true, "Email doesn't have any Received headers")
  else Some (scanReceived receivedHeaders).

(** [Rules()]. *)
Definition Rules : list Rule := [
  mkRule "inconsistent_from_reply_to" "From and Reply-To domains don't match" 3
         (λ email, liftP (checkFromReplyToDomainMismatch email));
  mkRule "inconsistent_from_return_path" "From and Return-Path domains don't match" 3
         (λ email, liftP (checkFromReturnPathDomainMismatch email));
  mkRule "missing_spf" "Domain doesn't have SPF record" 2
         checkMissingSPF;
  mkRule "suspicious_from_domain" "From domain is suspicious (lookalike domain)" 4
         (λ email, liftP (checkSuspiciousFromDomain email));
  mkRule "multiple_from_headers" "Email contains multiple From headers" 5
         (λ email, liftP (checkMultipleFromHeaders email));
  mkRule "suspicious_received_chain" "Suspicious Received headers chain" 2
         (λ email, liftP (checkSuspiciousReceivedChain email))
].

(** *** detector/detector.go *)

Record SpoofDetector := mkSpoofDetector {
  rules : list Rule
}.

Definition NewSpoofDetector : SpoofDetector := mkSpoofDetector Rules.

(** The loop [for _, record := range txtRecords] of [checkSPF] and
    [checkDMARC]: the first record that starts with [pre], the empty
    string when there is none. *)
Fixpoint firstWithPrefix (txtRecords : list string) (pre : string) : string :=
  match txtRecords with
  | [] => ""
  | record :: rest =>
      if strings.HasPrefix record pre then record else firstWithPrefix rest pre
  end.

Definition checkSPF (email : Email) (domain : string) : M string :=
  answer ← LookupTXT domain;
  match answer with
  | None => mret ("SPF lookup failed for domain " +:+ domain)
  | Some txtRecords =>
      let spfRecord := firstWithPrefix txtRecords "v=spf1" in
      if bool_decide (spfRecord = "")
      then mret ("Domain " +:+ domain +:+ " doesn't have an SPF record")
      else if strings.Contains spfRecord "-all" then mret ""
      else if strings.Contains spfRecord "~all" then mret ""
      else if strings.Contains spfRecord "?all"
           then mret ("Domain " +:+ domain +:+ " has a neutral SPF policy")
      else mret ("Domain " +:+ domain +:+ " has a permissive SPF policy")
  end.

Definition checkDKIM (email : Email) (domain : string) : option string :=
  if negb (HasHeader email "DKIM-Signature")
  then Some "Email doesn't have a DKIM signature"
  else
    dkimSignature ← GetHeaderValue email "DKIM-Signature";
    if negb (strings.Contains dkimSignature domain)
    then Some "DKIM signature domain doesn't match From domain"
    else Some "".

Definition checkDMARC (email : Email) (domain : string) : M string :=
  let dmarcDomain := "_dmarc." +:+ domain in
  answer ← LookupTXT dmarcDomain;
  match answer with
  | None => mret ("DMARC lookup failed for domain " +:+ domain)
  | Some txtRecords =>
      let dmarcRecord := firstWithPrefix txtRecords "v=DMARC1" in
      if bool_decide (dmarcRecord = "")
      then mret ("Domain " +:+ domain +:+ " doesn't have a DMARC record")
      else if strings.Contains dmarcRecord "p=reject" then mret ""
      else if strings.Contains dmarcRecord "p=quarantine" then mret ""
      else if strings.Contains dmarcRecord "p=none"
           then mret ("Domain " +:+ domain +:+ " has a monitoring-only DMARC policy")
      else mret ("Domain " +:+ domain +:+ " has an unknown DMARC policy")
  end.

(** [result.Score += weight; result.Reasons = append(result.Reasons, reason)]. *)
Definition addReason (result : AnalysisResult) (weight : Z) (reason : string)
  : AnalysisResult :=
  {| IsSpoofed := IsSpoofed result;
     Reasons := (Reasons result ++ [reason])%list;
     Score := int_add (Score result) weight |}.

(** The loop [for _, rule := range d.rules] of [Analyze]. *)
Fixpoint applyRules (rs : list Rule) (email : Email) (result : AnalysisResult)
  : M AnalysisResult :=
  match rs with
  | [] => mret result
  | rule :: rest =>
      '(triggered, reason) ← CheckFunc rule email;
      applyRules rest email
        (if triggered : bool then addReason result (Weight rule) reason else result)
  end.

(** The block [if email.From != nil { ... }] of [Analyze]. *)
Definition checkAuthenticity (email : Email) (result : AnalysisResult)
  : M AnalysisResult :=
  match From email with
  | None => mret result
  | Some _ =>
      fromDomain ← liftP (GetDomain (From email));
      if bool_decide (fromDomain ≠ "") then
        spfResult ← checkSPF email fromDomain;
        let result :=
          if bool_decide (spfResult ≠ "") then addReason result 3 spfResult else result in
        dkimResult ← liftP (checkDKIM email fromDomain);
        let result :=
          if bool_decide (dkimResult ≠ "") then addReason result 3 dkimResult else result in
        dmarcResult ← checkDMARC email fromDomain;
        let result :=
          if bool_decide (dmarcResult ≠ "") then addReason result 2 dmarcResult else result in
        mret result
      else mret result
  end.

Definition Analyze (d : SpoofDetector) (email : Email) : M AnalysisResult :=
  let result := {| IsSpoofed := false; Reasons := []; Score := 0 |} in
  result ← applyRules (rules d) email result;
  result ← checkAuthenticity email result;
  if (5 <=? Score result)%Z
  then mret {| IsSpoofed := true; Reasons := Reasons result; Score := Score result |}
  else mret result.

End Detector.
End detector.

Import models detector.

(** ** Vocabulary of the statements *)

(** The five typosquatting transforms of a reference domain. *)
Definition typosOf (domain2 : string) : list string := [
  strings.Replace1 domain2 "." "-";
  strings.Replace1 domain2 "." "";
  "mail-" +:+ domain2;
  domain2 +:+ "-secure";
  strings.Replace1 domain2 "m" "rn"
].

(** What a rule of weight [w] adds to the score and to the reasons when
    its check returned [c]. *)
Definition ruleWeight (w : Z) (c : bool * string) : Z := if c.1 then w else 0.
Definition ruleReason (c : bool * string) : list string := if c.1 then [c.2] else [].

(** What an authenticity check of weight [w] adds when it returned
    [finding]: nothing for the empty finding. *)
Definition findingWeight (w : Z) (finding : string) : Z :=
  if bool_decide (finding ≠ "") then w else 0.
Definition findingReason (finding : string) : list string :=
  if bool_decide (finding ≠ "") then [finding] else [].

(** [record] is the record the loops of [checkSPF] and [checkDMARC] stop
    at: the first of [txtRecords] that starts with [pre]. *)
Definition selectedRecord (txtRecords : list string) (pre record : string) : Prop :=
  ∃ before after,
    txtRecords = (before ++ record :: after)%list ∧
    Forall (λ r, strings.HasPrefix r pre = false) before ∧
    strings.HasPrefix record pre = true.

(** The result [Analyze] returns for a list of reasons and a score. *)
Definition verdict (reasons : list string) (score : Z) : AnalysisResult :=
  {| IsSpoofed := (5 <=? score); Reasons := reasons; Score := score |}.

(** A value of Go's [int]. *)
Definition in_int_range (z : Z) : Prop := int_min ≤ z ≤ int_max.

(** What rule [r] adds to the score when its check runs on [email] after
    the lookups [t]. *)
Definition contribution (email : Email) (t : Trace) (r : Rule) : Z :=
  match CheckFunc r email t with
  | Some ((true, _), _) => Weight r
  | _ => 0
  end.

Definition totalContribution (email : Email) (t : Trace) (rs : list Rule) : Z :=
  foldr Z.add 0 (map (contribution email t) rs).

(** A rule whose check, on [email], looks nothing up and returns the same
    outcome after any lookups. *)
Definition pureOn (email : Email) (r : Rule) : Prop :=
  ∃ c, ∀ t, CheckFunc r email t = Some (c, t).

(** [if finding != "" { result.Score += weight; ... append ... }]. *)
Definition addFinding (result : AnalysisResult) (weight : Z) (finding : string)
  : AnalysisResult :=
  if bool_decide (finding ≠ "") then addReason result weight finding else result.

(** The email of the spec's second scenario, as the spec words it: the same
    domain [d] in From, Reply-To and Return-Path, one From header, no
    Received header that contains a suspicious pattern, a TXT record of [d]
    with the prefix "v=spf1" that contains "-all", a DKIM-Signature header
    value that contains [d], and a TXT record of "_dmarc.d" with the prefix
    "v=DMARC1" that contains "p=reject". *)
Definition statedCleanEmail (resolver : nat → string → option (list string))
    (e : Email) (d : string) : Prop :=
  GetDomain (From e) = Some d ∧ d ≠ "" ∧
  GetDomain (ReplyTo e) = Some d ∧
  (∃ localPart, strings.Split (ReturnPath e) "@" = [localPart; d]) ∧
  length (GetAllHeaderValues e "From") = 1%nat ∧
  (∀ header pattern,
      header ∈ GetAllHeaderValues e "Received" → pattern ∈ suspiciousPatterns →
      strings.Contains header pattern = false) ∧
  (∀ n, ∃ txtRecords record,
      resolver n d = Some txtRecords ∧ record ∈ txtRecords ∧
      strings.HasPrefix record "v=spf1" = true ∧
      strings.Contains record "-all" = true) ∧
  (∃ signature,
      HasHeader e "DKIM-Signature" = true ∧
      GetHeaderValue e "DKIM-Signature" = Some signature ∧
      strings.Contains signature d = true) ∧
  (∀ n, ∃ txtRecords record,
      resolver n ("_dmarc." +:+ d) = Some txtRecords ∧ record ∈ txtRecords ∧
      strings.HasPrefix record "v=DMARC1" = true ∧
      strings.Contains record "p=reject" = true).

(** ** Sample emails and resolvers *)

(** A resolver that answers from a fixed zone, the same at every lookup; a
    name the zone does not hold is a lookup error. *)
Definition zoneResolver (zone : gmap string (list string))
  : nat → string → option (list string) := λ _ name, zone !! name.

(** A resolver for which every lookup fails. *)
Definition failingResolver : nat → string → option (list string) := λ _ _, None.

(** The sample emails hold ASCII bytes only, so [strings.ToLower] never
    leaves its byte-by-byte path and any function can stand for the Unicode
    one. *)
Definition asciiOnly : string → string := λ s, s.

(** The zone of a domain that publishes a strict SPF and DMARC policy. *)
Definition strictZone (d : string) : gmap string (list string) :=
  list_to_map [(d, ["v=spf1 -all"]); ("_dmarc." +:+ d, ["v=DMARC1; p=reject"])].

(** An email from alice at [d] with every header in agreement. *)
Definition mailFrom (d : string) (received signatures : list string) : Email :=
  {| From := Some (mkAddress "Alice" ("alice@" +:+ d));
     ReplyTo := Some (mkAddress "Alice" ("alice@" +:+ d));
     ReturnPath := "bounce@" +:+ d;
     MessageID := "<1@" +:+ d +:+ ">";
     Subject := "Hello";
     Body := "Hi";
     Headers := list_to_map [("From", ["Alice <alice@" +:+ d +:+ ">"]);
                             ("Received", received);
                             ("DKIM-Signature", signatures)];
     RawContent := [] |}.

Definition cleanMail (d : string) : Email :=
  mailFrom d ["from mx.example.net by mx.example.org"] ["v=1; a=rsa-sha256; d=" +:+ d].

(** An email without a From address and with two From headers. *)
Definition twoFromsMail : Email :=
  {| From := None;
     ReplyTo := None;
     ReturnPath := "";
     MessageID := "";
     Subject := "";
     Body := "";
     Headers := list_to_map [("From", ["alice@example.com"; "bob@example.org"]);
                             ("Received", ["from mx.example.net by mx.example.org"])];
     RawContent := [] |}.

(** A zone whose SPF record holds both "~all" and "-all". *)
Definition bothQualifiersZone : gmap string (list string) :=
  list_to_map [("example.com",
                ["google-site-verification=abc123";
                 "v=spf1 include:_spf.example.net ~all -all"])].

(** Zones with two SPF records and with two DMARC records, the strict one
    second. *)
Definition twoSPFZone : gmap string (list string) :=
  list_to_map [("example.com", ["v=spf1 +all"; "v=spf1 -all"]);
               ("_dmarc.example.com", ["v=DMARC1; p=reject"])].

Definition twoDMARCZone : gmap string (list string) :=
  list_to_map [("example.com", ["v=spf1 -all"]);
               ("_dmarc.example.com", ["v=DMARC1; p=none"; "v=DMARC1; p=reject"])].

(** ** Tactics for statements at sample inputs *)

(** A statement about the members of concrete lists, settled by evaluation. *)
Ltac by_evaluation :=
  cbv beta; lazymatch goal with |- ?P => apply (bool_decide_unpack P) end;
  vm_compute; exact I.

(** The premises of [statedCleanEmail] at a concrete email and zone, with
    the records and the signature that satisfy them. *)
Ltac stated_by_evaluation spfRecords spfRecord dmarcRecords dmarcRecord signature :=
  unfold statedCleanEmail;
  split; [reflexivity|];
  split; [discriminate|];
  split; [reflexivity|];
  split; [eexists; reflexivity|];
  split; [reflexivity|];
  split; [intros header pattern Hheader; revert pattern; apply Forall_forall;
          revert header Hheader; apply Forall_forall; by_evaluation|];
  split; [intros n; exists spfRecords, spfRecord;
          split; [reflexivity|]; split; [by_evaluation|]; split; reflexivity|];
  split; [exists signature; split; [reflexivity|]; split; reflexivity|];
  intros n; exists dmarcRecords, dmarcRecord;
  split; [reflexivity|]; split; [by_evaluation|]; split; reflexivity.

(** ** Package [utils] (utils/parser.go) *)

Module utils.

(** [ExtractEmailParts]: the local part and the domain of an address, with
    Go's third result, the error, as [Some message] ([None] is [nil]). *)
Definition ExtractEmailParts (email : string) : option (string * string * option string) :=
  let parts := strings.Split email "@" in
  if decide (length parts ≠ 2%nat) then Some ("", "", Some "invalid email format")
  else
    localPart ← index parts 0;
    domain ← index parts 1;
    Some (localPart, domain, None).

End utils.

(** ** Vocabulary of the further statements *)

(** The byte [sep] does not occur in [s]. *)
Definition without (sep : ascii) (s : string) : Prop := strings.Count s sep = 0%nat.

(** [domain] is no lookalike of a key of [keys], as [checkSuspiciousFromDomain]
    tests it. *)
Definition lookalikeOf (fromDomain domain : string) : bool :=
  bool_decide (fromDomain ≠ domain) && isSimilarDomain fromDomain domain.

(** The Received header [header], lowered, contains a suspicious pattern. *)
Definition suspiciousHeader (mapUnicodeLower : string → string) (header : string) : Prop :=
  ∃ pattern, pattern ∈ suspiciousPatterns ∧
             strings.Contains (strings.ToLower mapUnicodeLower header) pattern = true.

(** The email and the zone of two lookalikes at once: the From domain
    contains both "gmailcom" and "yahoocom". *)
Definition twoLookalikesMail : Email := cleanMail "gmailcom-yahoocom.example".

(** The outcomes of the six rules and of the three authenticity checks on
    one email. *)
Record Signals := mkSignals {
  fromReplyTo : bool * string;
  fromReturnPath : bool * string;
  missingSPF : bool * string;
  suspiciousFrom : bool * string;
  multipleFrom : bool * string;
  receivedChain : bool * string;
  spfFinding : string;
  dkimFinding : string;
  dmarcFinding : string
}.

Definition reasonsOf (s : Signals) : list string :=
  ruleReason (fromReplyTo s) ++ ruleReason (fromReturnPath s)
  ++ ruleReason (missingSPF s) ++ ruleReason (suspiciousFrom s)
  ++ ruleReason (multipleFrom s) ++ ruleReason (receivedChain s)
  ++ findingReason (spfFinding s) ++ findingReason (dkimFinding s)
  ++ findingReason (dmarcFinding s).

Definition scoreOf (s : Signals) : Z :=
  ruleWeight 3 (fromReplyTo s) + ruleWeight 3 (fromReturnPath s)
  + ruleWeight 2 (missingSPF s) + ruleWeight 4 (suspiciousFrom s)
  + ruleWeight 5 (multipleFrom s) + ruleWeight 2 (receivedChain s)
  + findingWeight 3 (spfFinding s) + findingWeight 3 (dkimFinding s)
  + findingWeight 2 (dmarcFinding s).

(** The names [Analyze] looks up for an email whose From domain is [d]. *)
Definition lookupsFor (d : string) : list string :=
  if decide (d = "") then [] else [d; d; "_dmarc." +:+ d].

(** [s] holds what the rules and the checks return on [e], run in the
    order of [Analyze] after the lookups [t]; without a From domain the
    three checks are not run and their findings are empty. *)
Definition signalsOf (resolver : nat → string → option (list string))
    (mapUnicodeLower : string → string) (rangeOrder : list string)
    (e : Email) (t : Trace) (d : string) (s : Signals) : Prop :=
  GetDomain (From e) = Some d ∧
  checkFromReplyToDomainMismatch e = Some (fromReplyTo s) ∧
  checkFromReturnPathDomainMismatch e = Some (fromReturnPath s) ∧
  (∃ t1, checkMissingSPF resolver e t = Some (missingSPF s, t1)) ∧
  checkSuspiciousFromDomain rangeOrder e = Some (suspiciousFrom s) ∧
  checkMultipleFromHeaders e = Some (multipleFrom s) ∧
  checkSuspiciousReceivedChain mapUnicodeLower e = Some (receivedChain s) ∧
  ((d = "" ∧ spfFinding s = "" ∧ dkimFinding s = "" ∧ dmarcFinding s = "")
   ∨ (d ≠ "" ∧
      checkSPF resolver e d (t ++ [d]) = Some (spfFinding s, (t ++ [d]) ++ [d]) ∧
      checkDKIM e d = Some (dkimFinding s) ∧
      checkDMARC resolver e d ((t ++ [d]) ++ [d])
        = Some (dmarcFinding s, ((t ++ [d]) ++ [d]) ++ ["_dmarc." +:+ d]))).

(** A check that returned a literal outcome: not triggered, or triggered
    with a reason that starts with a literal text. *)
Ltac reason_case :=
  let H := fresh in
  intros H; injection H as <-; try clear H; simpl;
  first [ intros H; discriminate H | intros _; discriminate ].

(** Zones for the further statements: a domain without an SPF record, and
    a DMARC record whose subdomain policy "sp=none" holds the text "p=none"
    behind its policy "p=quarantine". *)
Definition noSPFZone : gmap string (list string) :=
  list_to_map [("example.com", ["google-site-verification=abc123"]);
               ("_dmarc.example.com", ["v=DMARC1; p=reject"])].

Definition quarantineZone : gmap string (list string) :=
  list_to_map [("example.com", ["v=spf1 -all"]);
               ("_dmarc.example.com", ["v=DMARC1; p=quarantine; sp=none"])].

(** An email whose one Received header names an unknown host. *)
Definition unknownHostMail : Email :=
  mailFrom "example.com" ["from unknown (HELO mail) by mx.example.org"]
           ["v=1; d=example.com"].

(** An email from example.com that asks for replies at example.org. *)
Definition replyElsewhereMail : Email :=
  {| From := Some (mkAddress "Alice" "alice@example.com");
     ReplyTo := Some (mkAddress "Alice" "alice@example.org");
     ReturnPath := "bounce@example.com";
     MessageID := "<2@example.com>";
     Subject := "Hello";
     Body := "Hi";
     Headers := list_to_map [("From", ["Alice <alice@example.com>"]);
                             ("Reply-To", ["Alice <alice@example.org>"]);
                             ("Received", ["from mx.example.net by mx.example.org"]);
                             ("DKIM-Signature", ["v=1; a=rsa-sha256; d=example.com"])];
     RawContent := [] |}.

(** * Properties of the embedding *)

(** ** The string helpers *)

Lemma Split_length (s : string) (sep : ascii) :
  length (strings.Split s sep) = S (strings.Count s sep).
Proof.
  induction s as [|c s IH]; simpl; [reflexivity|].
  destruct (Ascii.eqb c sep); simpl.
  - now rewrite IH.
  - destruct (strings.Split s sep) as [|p ps]; simpl in *; [discriminate|exact IH].
Qed.

Lemma index_in_range {A} (s : list A) (i : nat) :
  (i < length s)%nat → ∃ x, index s i = Some x.
Proof. intros Hlt. unfold index. now apply lookup_lt_is_Some_2. Qed.

Lemma Contains_empty (s : string) : strings.Contains s "" = true.
Proof. destruct s; reflexivity. Qed.

(** The helpers on the inputs of Go's documentation and of this program. *)

Example Split_three_parts : strings.Split "a@b@c" "@" = ["a"; "b"; "c"].
Proof. reflexivity. Qed.

Example Split_no_separator : strings.Split "" "@" = [""].
Proof. reflexivity. Qed.

Example Replace1_first_only : strings.Replace1 "oink oink oink" "k" "ky" = "oinky oink oink".
Proof. reflexivity. Qed.

Example Replace1_first_m : strings.Replace1 "paypal.com" "m" "rn" = "paypal.corn".
Proof. reflexivity. Qed.

Example Contains_inside : strings.Contains "seafood" "foo" = true.
Proof. reflexivity. Qed.

Example Contains_absent : strings.Contains "seafood" "bar" = false.
Proof. reflexivity. Qed.

Example ToLower_ascii :
  strings.ToLower asciiOnly "from LOCALHOST [127.0.0.1]" = "from localhost [127.0.0.1]".
Proof. reflexivity. Qed.

Example GetDomain_one_at :
  GetDomain (Some (mkAddress "Alice" "alice@example.com")) = Some "example.com".
Proof. reflexivity. Qed.

(** ** [GetDomain] and the header accessors never panic *)

Lemma GetDomain_returns (address : option Address) :
  ∃ d, GetDomain address = Some d.
Proof.
  destruct address as [a|]; simpl; [|eauto].
  case_decide as Hlen; [eauto|].
  apply index_in_range. lia.
Qed.

Lemma GetDomain_nonempty_From (address : option Address) (d : string) :
  GetDomain address = Some d → d ≠ "" → ∃ a, address = Some a.
Proof.
  destruct address as [a|]; [eauto|]. simpl. intros [= <-] Hd. now destruct Hd.
Qed.

Lemma GetHeaderValue_returns (e : Email) (name : string) :
  ∃ v, GetHeaderValue e name = Some v.
Proof.
  unfold GetHeaderValue. destruct (Headers e !! name) as [values|]; [|eauto].
  case_decide as Hlen; [eauto|].
  apply index_in_range. lia.
Qed.

(** C5. [GetDomain] returns for every address, nil or not (no index is
    read out of range), and the value it returns is the empty string when
    the address is nil, when splitting the address string on "@" does not
    give exactly two parts, or, which is the same, when the address string
    does not hold exactly one "@". *)
Theorem GetDomain_fails_closed (address : option Address) :
  (∃ d, GetDomain address = Some d) ∧
  (address = None → GetDomain address = Some "") ∧
  (∀ a, address = Some a →
        length (strings.Split (Addr a) "@") ≠ 2%nat → GetDomain address = Some "") ∧
  (∀ a, address = Some a →
        strings.Count (Addr a) "@" ≠ 1%nat → GetDomain address = Some "").
Proof.
  split; [apply GetDomain_returns|].
  split; [now intros ->|].
  split.
  - intros a -> Hlen. simpl. now case_decide.
  - intros a -> Hcount. simpl. case_decide as Hlen; [reflexivity|].
    rewrite Split_length in Hlen. lia.
Qed.

(** ** Lookalike domains *)

Lemma equalsOneOf_spec (domain1 : string) (typos : list string) :
  equalsOneOf domain1 typos = true ↔ domain1 ∈ typos.
Proof.
  induction typos as [|typo rest IH]; simpl.
  - split; [discriminate|]. intros H. inversion H.
  - case_bool_decide as Heq.
    + subst. split; [intros _; left|reflexivity].
    + rewrite IH. split; [now right|].
      intros H. inversion H; subst; [now destruct Heq|assumption].
Qed.

Lemma isSimilarDomain_spec (domain1 domain2 : string) :
  isSimilarDomain domain1 domain2 = true ↔
  (domain1 ≠ domain2 ∧
   strings.Contains domain1 (strings.Replace1 domain2 "." "") = true)
  ∨ domain1 ∈ typosOf domain2.
Proof.
  unfold isSimilarDomain. fold (typosOf domain2).
  rewrite <- equalsOneOf_spec.
  case_bool_decide as Hne; simpl.
  - destruct (strings.Contains domain1 _); simpl.
    + split; [intros _; now left|reflexivity].
    + split; [now right|]. intros [[_ ?]|?]; [discriminate|assumption].
  - split; [now right|]. intros [[? _]|?]; [contradiction|assumption].
Qed.

(** C2, as the code has it.  Of the candidates for the reference
    "paypal.com" the predicate accepts those that contain "paypalcom" and
    the five transforms "paypal-com", "paypalcom", "mail-paypal.com",
    "paypal.com-secure" and "paypal.corn": the "-secure" transform appends
    to the whole reference, behind its top-level domain.  The candidate
    "paypal-secure.com" is none of them and is rejected, while
    "paypal.com-secure" is accepted. *)
Theorem isSimilarDomain_paypal :
  (∀ candidate,
     isSimilarDomain candidate "paypal.com" = true ↔
     (candidate ≠ "paypal.com" ∧ strings.Contains candidate "paypalcom" = true)
     ∨ candidate ∈ ["paypal-com"; "paypalcom"; "mail-paypal.com";
                    "paypal.com-secure"; "paypal.corn"]) ∧
  isSimilarDomain "paypal-secure.com" "paypal.com" = false ∧
  isSimilarDomain "paypal.com-secure" "paypal.com" = true.
Proof.
  split; [|split; reflexivity].
  intros candidate. apply isSimilarDomain_spec.
Qed.

(** C2, as the spec states it, fails: the pair is not a lookalike pair. *)
Lemma paypal_secure_is_not_similar :
  ¬ (isSimilarDomain "paypal-secure.com" "paypal.com" = true).
Proof. vm_compute. discriminate. Qed.

(** ** Running computations *)

Lemma bind_returns {A B} (m : M A) (f : A → M B) (t t' : Trace) (a : A) :
  m t = Some (a, t') → (m ≫= f) t = f a t'.
Proof. intros H. unfold mbind, M_bind. now rewrite H. Qed.

Lemma liftP_returns {A} (o : option A) (a : A) (t : Trace) :
  o = Some a → liftP o t = Some (a, t).
Proof. now intros ->. Qed.

Lemma bind_liftP {A B} (o : option A) (f : A → M B) (t : Trace) (a : A) :
  o = Some a → (liftP o ≫= f) t = f a t.
Proof. intros ->. reflexivity. Qed.

(** ** Go's [int] *)

Lemma wrap_int_small (z : Z) : int_min ≤ z ≤ int_max → wrap_int z = z.
Proof.
  unfold int_min, int_max, wrap_int. intros Hz.
  rewrite Z.mod_small; lia.
Qed.

Lemma wrap_int_range (z : Z) : int_min ≤ wrap_int z ≤ int_max.
Proof.
  unfold int_min, int_max, wrap_int.
  pose proof (Z.mod_pos_bound (z + 2 ^ 63) (2 ^ 64)). lia.
Qed.

Lemma wrap_int_add_l (a b : Z) : wrap_int (wrap_int a + b) = wrap_int (a + b).
Proof.
  unfold wrap_int.
  replace ((a + 2 ^ 63) mod 2 ^ 64 - 2 ^ 63 + b + 2 ^ 63)
    with ((a + 2 ^ 63) mod 2 ^ 64 + b) by lia.
  replace (a + b + 2 ^ 63) with ((a + 2 ^ 63) + b) by lia.
  now rewrite Zplus_mod_idemp_l.
Qed.

Lemma wrap_int_add_congr (a b c : Z) :
  wrap_int a = wrap_int b → wrap_int (a + c) = wrap_int (b + c).
Proof. intros H. now rewrite <- (wrap_int_add_l a), H, wrap_int_add_l. Qed.

(** ** The selected TXT record *)

Lemma firstWithPrefix_selected (txtRecords : list string) (pre record : string) :
  selectedRecord txtRecords pre record → firstWithPrefix txtRecords pre = record.
Proof.
  intros (before & after & -> & Hbefore & Hrec).
  induction Hbefore as [|r before Hr _ IH]; simpl.
  - now rewrite Hrec.
  - now rewrite Hr.
Qed.

Lemma selected_nonempty (txtRecords : list string) (pre record : string) :
  pre ≠ "" → selectedRecord txtRecords pre record → record ≠ "".
Proof.
  intros Hpre (_ & _ & _ & _ & Hrec) ->.
  destruct pre; [now destruct Hpre|discriminate].
Qed.

Lemma firstWithPrefix_none (txtRecords : list string) (pre : string) :
  pre ≠ "" →
  firstWithPrefix txtRecords pre = "" ↔
  Forall (λ r, strings.HasPrefix r pre = false) txtRecords.
Proof.
  intros Hpre. induction txtRecords as [|r rest IH]; simpl.
  - split; [constructor|reflexivity].
  - destruct (strings.HasPrefix r pre) eqn:Hr.
    + split.
      * intros ->. destruct pre; [now destruct Hpre|discriminate].
      * intros H. inversion H; congruence.
    + rewrite IH. split; [now constructor|]. intros H. now inversion H.
Qed.

Lemma firstWithPrefix_found (txtRecords : list string) (pre : string) :
  firstWithPrefix txtRecords pre ≠ "" →
  selectedRecord txtRecords pre (firstWithPrefix txtRecords pre).
Proof.
  induction txtRecords as [|r rest IH]; simpl; [congruence|].
  destruct (strings.HasPrefix r pre) eqn:Hr.
  - intros _. exists [], rest. repeat split; [constructor|assumption].
  - intros Hne. destruct (IH Hne) as (before & after & Heq & Hb & Hrec).
    exists (r :: before), after. repeat split; [|now constructor|assumption].
    simpl. now rewrite <- Heq.
Qed.

Section Properties.

Variable resolver : nat → string → option (list string).
Variable mapUnicodeLower : string → string.
Variable rangeOrder : list string.

Abbreviation standard := (NewSpoofDetector resolver mapUnicodeLower rangeOrder).
Abbreviation checkMissingSPF := (checkMissingSPF resolver).
Abbreviation checkSuspiciousFromDomain := (checkSuspiciousFromDomain rangeOrder).
Abbreviation checkSuspiciousReceivedChain := (checkSuspiciousReceivedChain mapUnicodeLower).
Abbreviation checkSPF := (checkSPF resolver).
Abbreviation checkDMARC := (checkDMARC resolver).
Abbreviation checkAuthenticity := (checkAuthenticity resolver).
Abbreviation LookupTXT := (LookupTXT resolver).
Abbreviation Analyze := (Analyze resolver).

(** ** Every check returns *)

Lemma checkFromReplyToDomainMismatch_returns (e : Email) :
  ∃ c, checkFromReplyToDomainMismatch e = Some c.
Proof.
  unfold checkFromReplyToDomainMismatch.
  destruct (From e) as [a|], (ReplyTo e) as [b|]; eauto.
  destruct (GetDomain_returns (Some a)) as [d ->].
  destruct (GetDomain_returns (Some b)) as [d' ->]. simpl.
  destruct (_ && _); eauto.
Qed.

Lemma checkFromReturnPathDomainMismatch_returns (e : Email) :
  ∃ c, checkFromReturnPathDomainMismatch e = Some c.
Proof.
  unfold checkFromReturnPathDomainMismatch.
  destruct (From e) as [a|]; eauto.
  case_bool_decide; eauto.
  destruct (GetDomain_returns (Some a)) as [d ->]. simpl.
  case_decide as Hlen; eauto.
  destruct (index_in_range (strings.Split (ReturnPath e) "@") 1) as [d' ->]; [lia|].
  simpl. destruct (_ && _); eauto.
Qed.

Lemma checkSuspiciousFromDomain_returns (e : Email) :
  ∃ c, checkSuspiciousFromDomain e = Some c.
Proof.
  unfold detector.checkSuspiciousFromDomain.
  destruct (From e) as [a|]; eauto.
  destruct (GetDomain_returns (Some a)) as [d ->]. simpl.
  case_bool_decide; eauto.
Qed.

Lemma checkMultipleFromHeaders_returns (e : Email) :
  ∃ c, checkMultipleFromHeaders e = Some c.
Proof. unfold checkMultipleFromHeaders. case_decide; eauto. Qed.

Lemma checkSuspiciousReceivedChain_returns (e : Email) :
  ∃ c, checkSuspiciousReceivedChain e = Some c.
Proof. unfold detector.checkSuspiciousReceivedChain. case_decide; eauto. Qed.

Lemma checkDKIM_returns (e : Email) (domain : string) :
  ∃ finding, checkDKIM e domain = Some finding.
Proof.
  unfold checkDKIM. destruct (negb (HasHeader e _)); eauto.
  destruct (GetHeaderValue_returns e "DKIM-Signature") as [v ->]. simpl.
  destruct (negb _); eauto.
Qed.

(** The checks that consult the DNS return too, after exactly the
    lookups they make. *)

Lemma checkMissingSPF_no_domain (e : Email) (t : Trace) :
  GetDomain (From e) = Some "" → checkMissingSPF e t = Some ((false, ""), t).
Proof.
  intros Hd. unfold detector.checkMissingSPF.
  destruct (From e) as [a|]; [|reflexivity].
  rewrite (bind_liftP _ _ _ _ Hd). reflexivity.
Qed.

Lemma checkMissingSPF_domain (e : Email) (d : string) (t : Trace) :
  GetDomain (From e) = Some d → d ≠ "" →
  checkMissingSPF e t =
    Some (match resolver (length t) d with
          | None => (false, "")
          | Some txtRecords =>
              if hasSPFRecord txtRecords then (false, "")
              else (true, "Domain " +:+ d +:+ " doesn't have an SPF record")
          end, t ++ [d]).
Proof.
  intros Hd Hne. unfold detector.checkMissingSPF.
  destruct (GetDomain_nonempty_From _ _ Hd Hne) as [a Ha]. rewrite Ha, <- Ha.
  rewrite (bind_liftP _ _ _ _ Hd).
  rewrite bool_decide_eq_false_2 by assumption.
  unfold mbind, M_bind, detector.LookupTXT.
  destruct (resolver (length t) d) as [txtRecords|]; [|reflexivity].
  now destruct (hasSPFRecord txtRecords).
Qed.

Lemma checkMissingSPF_returns (e : Email) (t : Trace) :
  ∃ c t', checkMissingSPF e t = Some (c, t').
Proof.
  destruct (GetDomain_returns (From e)) as [d Hd].
  destruct (decide (d = "")) as [->|Hne].
  - rewrite checkMissingSPF_no_domain by assumption. eauto.
  - rewrite (checkMissingSPF_domain _ _ _ Hd Hne). eauto.
Qed.

Lemma checkSPF_returns (e : Email) (domain : string) (t : Trace) :
  ∃ finding, checkSPF e domain t = Some (finding, t ++ [domain]).
Proof.
  unfold detector.checkSPF, mbind, M_bind, detector.LookupTXT.
  destruct (resolver (length t) domain) as [txtRecords|]; [|eauto].
  cbv zeta. repeat (destruct (_ : bool); eauto).
Qed.

Lemma checkDMARC_returns (e : Email) (domain : string) (t : Trace) :
  ∃ finding, checkDMARC e domain t = Some (finding, t ++ ["_dmarc." +:+ domain]).
Proof.
  unfold detector.checkDMARC, mbind, M_bind, detector.LookupTXT.
  destruct (resolver (length t) _) as [txtRecords|]; [|eauto].
  cbv zeta. repeat (destruct (_ : bool); eauto).
Qed.

(** ** Without a From domain the domain-dependent rules stay silent *)

Lemma checkFromReplyToDomainMismatch_no_domain (e : Email) :
  GetDomain (From e) = Some "" → checkFromReplyToDomainMismatch e = Some (false, "").
Proof.
  intros Hd. unfold checkFromReplyToDomainMismatch.
  destruct (From e) as [a|], (ReplyTo e) as [b|]; try reflexivity.
  rewrite Hd. destruct (GetDomain_returns (Some b)) as [d' ->]. reflexivity.
Qed.

Lemma checkFromReturnPathDomainMismatch_no_domain (e : Email) :
  GetDomain (From e) = Some "" →
  checkFromReturnPathDomainMismatch e = Some (false, "").
Proof.
  intros Hd. unfold checkFromReturnPathDomainMismatch.
  destruct (From e) as [a|]; [|reflexivity].
  case_bool_decide; [reflexivity|]. rewrite Hd. simpl.
  case_decide as Hlen; [reflexivity|].
  destruct (index_in_range (strings.Split (ReturnPath e) "@") 1) as [d' ->]; [lia|].
  reflexivity.
Qed.

Lemma checkSuspiciousFromDomain_no_domain (e : Email) :
  GetDomain (From e) = Some "" → checkSuspiciousFromDomain e = Some (false, "").
Proof.
  intros Hd. unfold detector.checkSuspiciousFromDomain.
  destruct (From e) as [a|]; [|reflexivity]. now rewrite Hd.
Qed.

(** ** The two halves of [Analyze] *)

Lemma applyRules_standard (e : Email) (t t1 : Trace) (c1 c2 c3 c4 c5 c6 : bool * string) :
  checkFromReplyToDomainMismatch e = Some c1 →
  checkFromReturnPathDomainMismatch e = Some c2 →
  checkMissingSPF e t = Some (c3, t1) →
  checkSuspiciousFromDomain e = Some c4 →
  checkMultipleFromHeaders e = Some c5 →
  checkSuspiciousReceivedChain e = Some c6 →
  applyRules (rules standard) e {| IsSpoofed := false; Reasons := []; Score := 0 |} t =
    Some ({| IsSpoofed := false;
             Reasons := ruleReason c1 ++ ruleReason c2 ++ ruleReason c3
                        ++ ruleReason c4 ++ ruleReason c5 ++ ruleReason c6;
             Score := ruleWeight 3 c1 + ruleWeight 3 c2 + ruleWeight 2 c3
                      + ruleWeight 4 c4 + ruleWeight 5 c5 + ruleWeight 2 c6 |}, t1).
Proof.
  intros H1 H2 H3 H4 H5 H6.
  destruct c1 as [b1 s1], c2 as [b2 s2], c3 as [b3 s3],
           c4 as [b4 s4], c5 as [b5 s5], c6 as [b6 s6].
  cbn [rules NewSpoofDetector Rules applyRules CheckFunc Weight].
  rewrite (bind_liftP _ _ _ _ H1), (bind_liftP _ _ _ _ H2).
  rewrite (bind_returns _ _ _ _ _ H3).
  rewrite (bind_liftP _ _ _ _ H4), (bind_liftP _ _ _ _ H5), (bind_liftP _ _ _ _ H6).
  destruct b1, b2, b3, b4, b5, b6; reflexivity.
Qed.

Lemma ruleWeight_bounds (w : Z) (c : bool * string) :
  0 ≤ w → 0 ≤ ruleWeight w c ≤ w.
Proof. unfold ruleWeight. destruct c.1; lia. Qed.

Lemma int_add_small (a b : Z) :
  int_min ≤ a + b ≤ int_max → int_add a b = a + b.
Proof. apply wrap_int_small. Qed.

Lemma checkAuthenticity_skipped (e : Email) (result : AnalysisResult) (t : Trace) :
  GetDomain (From e) = Some "" → checkAuthenticity e result t = Some (result, t).
Proof.
  intros Hd. unfold detector.checkAuthenticity.
  destruct (From e) as [a|]; [|reflexivity].
  rewrite (bind_liftP _ _ _ _ Hd). reflexivity.
Qed.

Lemma checkAuthenticity_run (e : Email) (d : string) (result : AnalysisResult)
    (t t2 t3 : Trace) (spf dkim dmarc : string) :
  GetDomain (From e) = Some d → d ≠ "" →
  checkSPF e d t = Some (spf, t2) →
  checkDKIM e d = Some dkim →
  checkDMARC e d t2 = Some (dmarc, t3) →
  0 ≤ Score result ≤ 1000 →
  checkAuthenticity e result t =
    Some ({| IsSpoofed := IsSpoofed result;
             Reasons := Reasons result ++ findingReason spf ++ findingReason dkim
                        ++ findingReason dmarc;
             Score := Score result + findingWeight 3 spf + findingWeight 3 dkim
                      + findingWeight 2 dmarc |}, t3).
Proof.
  intros Hd Hne Hspf Hdkim Hdmarc Hscore. unfold detector.checkAuthenticity.
  destruct (GetDomain_nonempty_From _ _ Hd Hne) as [a Ha]. rewrite Ha, <- Ha.
  rewrite (bind_liftP _ _ _ _ Hd).
  rewrite bool_decide_eq_true_2 by assumption.
  rewrite (bind_returns _ _ _ _ _ Hspf), (bind_liftP _ _ _ _ Hdkim).
  rewrite (bind_returns _ _ _ _ _ Hdmarc).
  unfold findingReason, findingWeight, addReason, mret, M_ret.
  destruct result as [sp rs sc]. simpl in *.
  repeat case_bool_decide; simpl.
  all: repeat match goal with
         | |- context [int_add ?a ?b] =>
             rewrite (int_add_small a b) by (unfold int_min, int_max; lia)
         end.
  all: rewrite <- ?app_assoc, ?app_nil_r; simpl.
  all: do 3 f_equal; lia.
Qed.

(** ** What [Analyze] returns with the standard rules *)

Lemma Analyze_finish (rs : list string) (sc : Z) (t : Trace) :
  (if 5 <=? sc
   then mret {| IsSpoofed := true; Reasons := rs; Score := sc |}
   else mret {| IsSpoofed := false; Reasons := rs; Score := sc |} : M AnalysisResult) t
  = Some (verdict rs sc, t).
Proof. unfold verdict. now destruct (5 <=? sc). Qed.

Lemma Analyze_without_domain (e : Email) (t : Trace) (c5 c6 : bool * string) :
  GetDomain (From e) = Some "" →
  checkMultipleFromHeaders e = Some c5 →
  checkSuspiciousReceivedChain e = Some c6 →
  Analyze standard e t =
    Some (verdict (ruleReason c5 ++ ruleReason c6)
                  (ruleWeight 5 c5 + ruleWeight 2 c6), t).
Proof.
  intros Hd H5 H6. unfold detector.Analyze. cbv zeta.
  rewrite (bind_returns _ _ _ _ _
    (applyRules_standard e t t _ _ _ _ _ _
       (checkFromReplyToDomainMismatch_no_domain e Hd)
       (checkFromReturnPathDomainMismatch_no_domain e Hd)
       (checkMissingSPF_no_domain e t Hd)
       (checkSuspiciousFromDomain_no_domain e Hd) H5 H6)).
  rewrite (bind_returns _ _ _ _ _ (checkAuthenticity_skipped e _ t Hd)).
  cbn [Score Reasons]. apply Analyze_finish.
Qed.

Lemma Analyze_with_domain (e : Email) (d : string) (t t1 t2 t3 : Trace)
    (c1 c2 c3 c4 c5 c6 : bool * string) (spf dkim dmarc : string) :
  GetDomain (From e) = Some d → d ≠ "" →
  checkFromReplyToDomainMismatch e = Some c1 →
  checkFromReturnPathDomainMismatch e = Some c2 →
  checkMissingSPF e t = Some (c3, t1) →
  checkSuspiciousFromDomain e = Some c4 →
  checkMultipleFromHeaders e = Some c5 →
  checkSuspiciousReceivedChain e = Some c6 →
  checkSPF e d t1 = Some (spf, t2) →
  checkDKIM e d = Some dkim →
  checkDMARC e d t2 = Some (dmarc, t3) →
  Analyze standard e t =
    Some (verdict
            (ruleReason c1 ++ ruleReason c2 ++ ruleReason c3 ++ ruleReason c4
             ++ ruleReason c5 ++ ruleReason c6
             ++ findingReason spf ++ findingReason dkim ++ findingReason dmarc)
            (ruleWeight 3 c1 + ruleWeight 3 c2 + ruleWeight 2 c3 + ruleWeight 4 c4
             + ruleWeight 5 c5 + ruleWeight 2 c6
             + findingWeight 3 spf + findingWeight 3 dkim + findingWeight 2 dmarc),
          t3).
Proof.
  intros Hd Hne H1 H2 H3 H4 H5 H6 Hspf Hdkim Hdmarc.
  unfold detector.Analyze. cbv zeta.
  rewrite (bind_returns _ _ _ _ _ (applyRules_standard e t t1 _ _ _ _ _ _ H1 H2 H3 H4 H5 H6)).
  erewrite bind_returns; cycle 1.
  { apply (checkAuthenticity_run e d _ t1 t2 t3 spf dkim dmarc); try assumption.
    cbn [Score].
    pose proof (ruleWeight_bounds 3 c1). pose proof (ruleWeight_bounds 3 c2).
    pose proof (ruleWeight_bounds 2 c3). pose proof (ruleWeight_bounds 4 c4).
    pose proof (ruleWeight_bounds 5 c5). pose proof (ruleWeight_bounds 2 c6). lia. }
  cbn [Score Reasons IsSpoofed].
  rewrite Analyze_finish. repeat rewrite <- app_assoc. reflexivity.
Qed.

(** ** The claims about the standard detector *)

(** C6. [Analyze] returns, and the reasons of its result are, in this
    order: the reasons of the triggered rules in registration order
    (From/Reply-To mismatch, From/Return-Path mismatch, missing SPF,
    suspicious From domain, multiple From headers, suspicious Received
    chain), then the SPF finding, the DKIM finding and the DMARC finding,
    each present exactly when it is not empty.  The three findings are
    those of the checks run on the From domain, in the order SPF, DKIM,
    DMARC, and there is none when there is no From domain. *)
Theorem Analyze_reasons_order (e : Email) (t : Trace) :
  ∃ (c1 c2 c3 c4 c5 c6 : bool * string) (spf dkim dmarc : string)
    (t1 t3 : Trace) (r : AnalysisResult),
    checkFromReplyToDomainMismatch e = Some c1 ∧
    checkFromReturnPathDomainMismatch e = Some c2 ∧
    checkMissingSPF e t = Some (c3, t1) ∧
    checkSuspiciousFromDomain e = Some c4 ∧
    checkMultipleFromHeaders e = Some c5 ∧
    checkSuspiciousReceivedChain e = Some c6 ∧
    ((GetDomain (From e) = Some "" ∧ spf = "" ∧ dkim = "" ∧ dmarc = "" ∧ t3 = t1)
     ∨ (∃ d t2, GetDomain (From e) = Some d ∧ d ≠ "" ∧
                checkSPF e d t1 = Some (spf, t2) ∧
                checkDKIM e d = Some dkim ∧
                checkDMARC e d t2 = Some (dmarc, t3))) ∧
    Analyze standard e t = Some (r, t3) ∧
    Reasons r =
      ruleReason c1 ++ ruleReason c2 ++ ruleReason c3 ++ ruleReason c4
      ++ ruleReason c5 ++ ruleReason c6
      ++ findingReason spf ++ findingReason dkim ++ findingReason dmarc.
Proof.
  destruct (checkFromReplyToDomainMismatch_returns e) as [c1 H1].
  destruct (checkFromReturnPathDomainMismatch_returns e) as [c2 H2].
  destruct (checkMissingSPF_returns e t) as (c3 & t1 & H3).
  destruct (checkSuspiciousFromDomain_returns e) as [c4 H4].
  destruct (checkMultipleFromHeaders_returns e) as [c5 H5].
  destruct (checkSuspiciousReceivedChain_returns e) as [c6 H6].
  destruct (GetDomain_returns (From e)) as [d Hd].
  destruct (decide (d = "")) as [->|Hne].
  - pose proof (checkFromReplyToDomainMismatch_no_domain e Hd) as H1'.
    pose proof (checkFromReturnPathDomainMismatch_no_domain e Hd) as H2'.
    pose proof (checkMissingSPF_no_domain e t Hd) as H3'.
    pose proof (checkSuspiciousFromDomain_no_domain e Hd) as H4'.
    exists (false, ""), (false, ""), (false, ""), (false, ""), c5, c6, "", "", "", t, t.
    eexists. repeat split; try eassumption.
    + left. repeat split. assumption.
    + apply (Analyze_without_domain e t c5 c6 Hd H5 H6).
    + cbn. now rewrite app_nil_r.
  - destruct (checkSPF_returns e d t1) as [spf Hspf].
    destruct (checkDKIM_returns e d) as [dkim Hdkim].
    destruct (checkDMARC_returns e d (t1 ++ [d])) as [dmarc Hdmarc].
    exists c1, c2, c3, c4, c5, c6, spf, dkim, dmarc, t1,
           ((t1 ++ [d]) ++ ["_dmarc." +:+ d]).
    eexists. repeat split; try eassumption.
    + right. exists d, (t1 ++ [d]). repeat split; eassumption.
    + apply (Analyze_with_domain e d t t1 (t1 ++ [d]) _ c1 c2 c3 c4 c5 c6 spf dkim dmarc);
        eassumption.
    + reflexivity.
Qed.

(** [Analyze] with the standard rules always returns, and what it returns
    is the verdict for its reasons and score. *)
Lemma Analyze_standard_returns (e : Email) (t : Trace) :
  ∃ r t', Analyze standard e t = Some (r, t') ∧ r = verdict (Reasons r) (Score r).
Proof.
  destruct (GetDomain_returns (From e)) as [d Hd].
  destruct (checkMultipleFromHeaders_returns e) as [c5 H5].
  destruct (checkSuspiciousReceivedChain_returns e) as [c6 H6].
  destruct (decide (d = "")) as [->|Hne].
  - rewrite (Analyze_without_domain e t c5 c6 Hd H5 H6). eauto.
  - destruct (checkFromReplyToDomainMismatch_returns e) as [c1 H1].
    destruct (checkFromReturnPathDomainMismatch_returns e) as [c2 H2].
    destruct (checkMissingSPF_returns e t) as (c3 & t1 & H3).
    destruct (checkSuspiciousFromDomain_returns e) as [c4 H4].
    destruct (checkSPF_returns e d t1) as [spf Hspf].
    destruct (checkDKIM_returns e d) as [dkim Hdkim].
    destruct (checkDMARC_returns e d (t1 ++ [d])) as [dmarc Hdmarc].
    rewrite (Analyze_with_domain e d t t1 _ _ c1 c2 c3 c4 c5 c6 spf dkim dmarc
               Hd Hne H1 H2 H3 H4 H5 H6 Hspf Hdkim Hdmarc).
    eauto.
Qed.

Lemma checkSPF_selected_strict (e : Email) (domain : string) (t : Trace)
    (txtRecords : list string) (spfRecord : string) :
  resolver (length t) domain = Some txtRecords →
  selectedRecord txtRecords "v=spf1" spfRecord →
  strings.Contains spfRecord "-all" = true →
  checkSPF e domain t = Some ("", t ++ [domain]).
Proof.
  intros Hres Hsel Hall.
  assert (Hne : spfRecord ≠ "") by (eapply selected_nonempty; [|exact Hsel]; discriminate).
  unfold detector.checkSPF, mbind, M_bind, detector.LookupTXT.
  rewrite Hres. cbv zeta.
  rewrite (firstWithPrefix_selected _ _ _ Hsel).
  rewrite bool_decide_eq_false_2 by assumption.
  now rewrite Hall.
Qed.

(** C3. When the TXT lookup of the domain succeeds and [spfRecord] is the
    record [checkSPF] selects (the first one with the prefix "v=spf1"),
    the qualifiers are tried in the order "-all", "~all", "?all" and the
    first one the record contains decides alone: with "-all" there is no
    finding whatever else the record contains (so a record with both
    "-all" and "~all" gives no finding); otherwise with "~all" there is
    no finding; otherwise with "?all" the finding is the neutral policy;
    otherwise it is the permissive policy. *)
Theorem checkSPF_qualifier_precedence (e : Email) (domain : string) (t : Trace)
    (txtRecords : list string) (spfRecord : string) :
  resolver (length t) domain = Some txtRecords →
  selectedRecord txtRecords "v=spf1" spfRecord →
  (strings.Contains spfRecord "-all" = true →
     checkSPF e domain t = Some ("", t ++ [domain])) ∧
  (strings.Contains spfRecord "-all" = false →
   strings.Contains spfRecord "~all" = true →
     checkSPF e domain t = Some ("", t ++ [domain])) ∧
  (strings.Contains spfRecord "-all" = false →
   strings.Contains spfRecord "~all" = false →
   strings.Contains spfRecord "?all" = true →
     checkSPF e domain t =
       Some ("Domain " +:+ domain +:+ " has a neutral SPF policy", t ++ [domain])) ∧
  (strings.Contains spfRecord "-all" = false →
   strings.Contains spfRecord "~all" = false →
   strings.Contains spfRecord "?all" = false →
     checkSPF e domain t =
       Some ("Domain " +:+ domain +:+ " has a permissive SPF policy", t ++ [domain])).
Proof.
  intros Hres Hsel.
  assert (Hne : spfRecord ≠ "") by (eapply selected_nonempty; [|exact Hsel]; discriminate).
  unfold detector.checkSPF, mbind, M_bind, detector.LookupTXT.
  rewrite Hres. cbv zeta.
  rewrite (firstWithPrefix_selected _ _ _ Hsel).
  rewrite bool_decide_eq_false_2 by assumption.
  repeat split.
  - now intros ->.
  - now intros -> ->.
  - now intros -> -> ->.
  - now intros -> -> ->.
Qed.

(** C4. When every TXT lookup of the From domain [d] fails, the
    structural rule "missing SPF" and the SPF check behave differently on
    that same failure.  The rule is not triggered and adds nothing to the
    score or the reasons; the check returns the non-empty finding
    "SPF lookup failed for domain d", which adds its weight 3 to the score
    and itself to the reasons of the result of [Analyze]. *)
Theorem lookup_failure_asymmetry (e : Email) (d : string) (t : Trace) :
  GetDomain (From e) = Some d → d ≠ "" →
  (∀ n, resolver n d = None) →
  checkMissingSPF e t = Some ((false, ""), t ++ [d]) ∧
  checkSPF e d (t ++ [d]) =
    Some ("SPF lookup failed for domain " +:+ d, (t ++ [d]) ++ [d]) ∧
  "SPF lookup failed for domain " +:+ d ≠ "" ∧
  ∃ (c1 c2 c4 c5 c6 : bool * string) (dkim dmarc : string) (t3 : Trace),
    checkFromReplyToDomainMismatch e = Some c1 ∧
    checkFromReturnPathDomainMismatch e = Some c2 ∧
    checkSuspiciousFromDomain e = Some c4 ∧
    checkMultipleFromHeaders e = Some c5 ∧
    checkSuspiciousReceivedChain e = Some c6 ∧
    checkDKIM e d = Some dkim ∧
    checkDMARC e d ((t ++ [d]) ++ [d]) = Some (dmarc, t3) ∧
    Analyze standard e t =
      Some (verdict
              (ruleReason c1 ++ ruleReason c2 ++ ruleReason c4
               ++ ruleReason c5 ++ ruleReason c6
               ++ ["SPF lookup failed for domain " +:+ d]
               ++ findingReason dkim ++ findingReason dmarc)
              (ruleWeight 3 c1 + ruleWeight 3 c2 + 0 + ruleWeight 4 c4
               + ruleWeight 5 c5 + ruleWeight 2 c6
               + 3 + findingWeight 3 dkim + findingWeight 2 dmarc),
            t3).
Proof.
  intros Hd Hne Hfail.
  assert (H3 : checkMissingSPF e t = Some ((false, ""), t ++ [d])).
  { rewrite (checkMissingSPF_domain e d t Hd Hne). now rewrite Hfail. }
  assert (Hspf : checkSPF e d (t ++ [d]) =
                 Some ("SPF lookup failed for domain " +:+ d, (t ++ [d]) ++ [d])).
  { unfold detector.checkSPF, mbind, M_bind, detector.LookupTXT. now rewrite Hfail. }
  assert (Hmsg : "SPF lookup failed for domain " +:+ d ≠ "") by discriminate.
  repeat split; try assumption.
  destruct (checkFromReplyToDomainMismatch_returns e) as [c1 H1].
  destruct (checkFromReturnPathDomainMismatch_returns e) as [c2 H2].
  destruct (checkSuspiciousFromDomain_returns e) as [c4 H4].
  destruct (checkMultipleFromHeaders_returns e) as [c5 H5].
  destruct (checkSuspiciousReceivedChain_returns e) as [c6 H6].
  destruct (checkDKIM_returns e d) as [dkim Hdkim].
  destruct (checkDMARC_returns e d ((t ++ [d]) ++ [d])) as [dmarc Hdmarc].
  exists c1, c2, c4, c5, c6, dkim, dmarc. eexists.
  repeat split; try eassumption.
  rewrite (Analyze_with_domain e d t _ _ _ c1 c2 (false, "") c4 c5 c6 _ dkim dmarc
             Hd Hne H1 H2 H3 H4 H5 H6 Hspf Hdkim Hdmarc).
  unfold findingReason at 1. unfold findingWeight at 1.
  rewrite bool_decide_eq_true_2 by assumption.
  reflexivity.
Qed.

(** C7. When the From address is nil or has no domain (and the Reply-To
    address is nil or has no domain), none of the four domain-dependent
    rules triggers, the block of the authenticity checks leaves the result
    and the trace of lookups as they are (no check runs, no name is looked
    up), and the result of [Analyze] is made of the two purely structural
    rules alone: multiple From headers and suspicious Received chain. *)
Theorem no_domain_only_structural (e : Email) (t : Trace) :
  From e = None ∨ GetDomain (From e) = Some "" →
  ReplyTo e = None ∨ GetDomain (ReplyTo e) = Some "" →
  checkFromReplyToDomainMismatch e = Some (false, "") ∧
  checkFromReturnPathDomainMismatch e = Some (false, "") ∧
  checkMissingSPF e t = Some ((false, ""), t) ∧
  checkSuspiciousFromDomain e = Some (false, "") ∧
  (∀ result t', checkAuthenticity e result t' = Some (result, t')) ∧
  ∃ c5 c6 : bool * string,
    checkMultipleFromHeaders e = Some c5 ∧
    checkSuspiciousReceivedChain e = Some c6 ∧
    Analyze standard e t =
      Some (verdict (ruleReason c5 ++ ruleReason c6)
                    (ruleWeight 5 c5 + ruleWeight 2 c6), t).
Proof.
  intros HFrom _.
  assert (Hd : GetDomain (From e) = Some "") by (destruct HFrom as [->|]; auto).
  split; [now apply checkFromReplyToDomainMismatch_no_domain|].
  split; [now apply checkFromReturnPathDomainMismatch_no_domain|].
  split; [now apply checkMissingSPF_no_domain|].
  split; [now apply checkSuspiciousFromDomain_no_domain|].
  split; [intros; now apply checkAuthenticity_skipped|].
  destruct (checkMultipleFromHeaders_returns e) as [c5 H5].
  destruct (checkSuspiciousReceivedChain_returns e) as [c6 H6].
  exists c5, c6. repeat split; try assumption.
  now apply Analyze_without_domain.
Qed.

(** C10. [checkDKIM] reads the first value stored under "DKIM-Signature"
    and no other: when the first value does not contain the From domain
    [d], the finding is "DKIM signature domain doesn't match From domain"
    even if a later value contains [d], and in the result of [Analyze] it
    stands among the reasons and adds the weight 3 to the score. *)
Theorem checkDKIM_first_value_only (e : Email) (d v0 : string) (later : list string)
    (t : Trace) :
  GetDomain (From e) = Some d →
  Headers e !! "DKIM-Signature" = Some (v0 :: later) →
  strings.Contains v0 d = false →
  (∃ v, v ∈ later ∧ strings.Contains v d = true) →
  checkDKIM e d = Some "DKIM signature domain doesn't match From domain" ∧
  ∃ (c1 c2 c3 c4 c5 c6 : bool * string) (spf dmarc : string) (t1 t2 t3 : Trace),
    checkFromReplyToDomainMismatch e = Some c1 ∧
    checkFromReturnPathDomainMismatch e = Some c2 ∧
    checkMissingSPF e t = Some (c3, t1) ∧
    checkSuspiciousFromDomain e = Some c4 ∧
    checkMultipleFromHeaders e = Some c5 ∧
    checkSuspiciousReceivedChain e = Some c6 ∧
    checkSPF e d t1 = Some (spf, t2) ∧
    checkDMARC e d t2 = Some (dmarc, t3) ∧
    Analyze standard e t =
      Some (verdict
              (ruleReason c1 ++ ruleReason c2 ++ ruleReason c3 ++ ruleReason c4
               ++ ruleReason c5 ++ ruleReason c6
               ++ findingReason spf
               ++ ["DKIM signature domain doesn't match From domain"]
               ++ findingReason dmarc)
              (ruleWeight 3 c1 + ruleWeight 3 c2 + ruleWeight 2 c3 + ruleWeight 4 c4
               + ruleWeight 5 c5 + ruleWeight 2 c6
               + findingWeight 3 spf + 3 + findingWeight 2 dmarc),
            t3).
Proof.
  intros Hd Hhdr Hfirst _.
  assert (Hne : d ≠ "").
  { intros ->. rewrite Contains_empty in Hfirst. discriminate. }
  assert (Hdkim : checkDKIM e d = Some "DKIM signature domain doesn't match From domain").
  { unfold checkDKIM, HasHeader, GetHeaderValue. rewrite Hhdr.
    rewrite bool_decide_eq_true_2 by eauto. simpl. now rewrite Hfirst. }
  split; [assumption|].
  destruct (checkFromReplyToDomainMismatch_returns e) as [c1 H1].
  destruct (checkFromReturnPathDomainMismatch_returns e) as [c2 H2].
  destruct (checkMissingSPF_returns e t) as (c3 & t1 & H3).
  destruct (checkSuspiciousFromDomain_returns e) as [c4 H4].
  destruct (checkMultipleFromHeaders_returns e) as [c5 H5].
  destruct (checkSuspiciousReceivedChain_returns e) as [c6 H6].
  destruct (checkSPF_returns e d t1) as [spf Hspf].
  destruct (checkDMARC_returns e d (t1 ++ [d])) as [dmarc Hdmarc].
  exists c1, c2, c3, c4, c5, c6, spf, dmarc, t1, (t1 ++ [d]). eexists.
  repeat split; try eassumption.
  now rewrite (Analyze_with_domain e d t t1 _ _ c1 c2 c3 c4 c5 c6 spf _ dmarc
             Hd Hne H1 H2 H3 H4 H5 H6 Hspf Hdkim Hdmarc).
Qed.

(** ** The score does not depend on the order of the rules *)

Lemma totalContribution_Permutation (e : Email) (t : Trace) (l l' : list Rule) :
  Permutation l l' → totalContribution e t l = totalContribution e t l'.
Proof.
  unfold totalContribution.
  induction 1 as [|r l l' _ IH|r r' l|l l' l'' _ IH1 _ IH2]; simpl.
  - reflexivity.
  - now rewrite IH.
  - lia.
  - now rewrite IH1.
Qed.

Lemma totalContribution_app (e : Email) (t : Trace) (l1 l2 : list Rule) :
  totalContribution e t (l1 ++ l2) = totalContribution e t l1 + totalContribution e t l2.
Proof.
  unfold totalContribution. induction l1 as [|r l1 IH]; simpl; [reflexivity|].
  rewrite IH. lia.
Qed.

Lemma applyRules_app (l1 l2 : list Rule) (e : Email) (result : AnalysisResult) (t : Trace) :
  applyRules (l1 ++ l2) e result t =
  (applyRules l1 e result ≫= λ result', applyRules l2 e result') t.
Proof.
  revert result t. induction l1 as [|r l1 IH]; intros result t; [reflexivity|].
  simpl. unfold mbind, M_bind.
  destruct (CheckFunc r e t) as [[[triggered reason] t']|]; [|reflexivity].
  apply IH.
Qed.

(** One rule, whatever it does: the score moves by its contribution,
    modulo the wrap-around of [int]. *)
Lemma applyRules_step (r : Rule) (rest : list Rule) (e : Email)
    (result : AnalysisResult) (t t' : Trace) (c : bool * string) :
  CheckFunc r e t = Some (c, t') →
  ∃ result',
    applyRules (r :: rest) e result t = applyRules rest e result' t' ∧
    IsSpoofed result' = IsSpoofed result ∧
    wrap_int (Score result') = wrap_int (Score result + contribution e t r) ∧
    (in_int_range (Score result) → in_int_range (Score result')).
Proof.
  intros Hc. destruct c as [triggered reason].
  exists (if triggered then addReason result (Weight r) reason else result).
  split; [simpl; now rewrite (bind_returns _ _ _ _ _ Hc)|].
  unfold contribution. rewrite Hc.
  destruct triggered; simpl.
  - split; [reflexivity|]. split.
    + unfold int_add. now rewrite (wrap_int_small (wrap_int _)) by apply wrap_int_range.
    + intros _. apply wrap_int_range.
  - split; [reflexivity|]. split; [f_equal; lia|auto].
Qed.

Lemma applyRules_pure (e : Email) (l : list Rule) (t t0 : Trace) :
  Forall (pureOn e) l →
  ∀ result, ∃ result',
    applyRules l e result t = Some (result', t) ∧
    IsSpoofed result' = IsSpoofed result ∧
    wrap_int (Score result') = wrap_int (Score result + totalContribution e t0 l) ∧
    (in_int_range (Score result) → in_int_range (Score result')).
Proof.
  induction 1 as [|r l [c Hc] _ IH]; intros result.
  - exists result. split; [reflexivity|]. split; [reflexivity|]. split; [|auto].
    unfold totalContribution. simpl. f_equal. lia.
  - destruct (applyRules_step r l e result t t c (Hc t))
      as (result1 & Hrun & Hsp & Hsc & Hrange).
    destruct (IH result1) as (result' & Hrun' & Hsp' & Hsc' & Hrange').
    exists result'. rewrite Hrun.
    split; [assumption|]. split; [congruence|]. split; [|auto].
    rewrite Hsc'. unfold totalContribution. simpl. fold (totalContribution e t0 l).
    rewrite <- wrap_int_add_l, Hsc, wrap_int_add_l.
    replace (contribution e t0 r) with (contribution e t r).
    + f_equal. lia.
    + unfold contribution. now rewrite (Hc t), (Hc t0).
Qed.

(** A list of rules of which one only may look names up. *)
Lemma applyRules_one_impure (e : Email) (l1 l2 : list Rule) (r : Rule)
    (t t1 : Trace) (c : bool * string) :
  Forall (pureOn e) l1 → Forall (pureOn e) l2 →
  CheckFunc r e t = Some (c, t1) →
  ∀ result, ∃ result',
    applyRules (l1 ++ r :: l2) e result t = Some (result', t1) ∧
    IsSpoofed result' = IsSpoofed result ∧
    wrap_int (Score result') =
      wrap_int (Score result + totalContribution e t (l1 ++ r :: l2)) ∧
    (in_int_range (Score result) → in_int_range (Score result')).
Proof.
  intros Hl1 Hl2 Hc result.
  destruct (applyRules_pure e l1 t t Hl1 result) as (ra & Hra & Hspa & Hsca & Hrga).
  destruct (applyRules_step r l2 e ra t t1 c Hc) as (rb & Hrb & Hspb & Hscb & Hrgb).
  destruct (applyRules_pure e l2 t1 t Hl2 rb) as (rc & Hrc & Hspc & Hscc & Hrgc).
  exists rc. rewrite applyRules_app, (bind_returns _ _ _ _ _ Hra), Hrb.
  split; [assumption|]. split; [congruence|]. split; [|auto].
  rewrite Hscc, (wrap_int_add_congr _ _ _ Hscb).
  replace (Score ra + contribution e t r + totalContribution e t l2)
    with (Score ra + (contribution e t r + totalContribution e t l2)) by lia.
  rewrite (wrap_int_add_congr _ _ _ Hsca), totalContribution_app.
  f_equal. unfold totalContribution. simpl. lia.
Qed.

Lemma addFinding_score (result : AnalysisResult) (w : Z) (finding : string) :
  IsSpoofed (addFinding result w finding) = IsSpoofed result ∧
  wrap_int (Score (addFinding result w finding)) =
    wrap_int (Score result + findingWeight w finding) ∧
  (in_int_range (Score result) → in_int_range (Score (addFinding result w finding))).
Proof.
  unfold addFinding, findingWeight. case_bool_decide; simpl.
  - split; [reflexivity|]. split.
    + unfold int_add. now rewrite (wrap_int_small (wrap_int _)) by apply wrap_int_range.
    + intros _. apply wrap_int_range.
  - split; [reflexivity|]. split; [f_equal; lia|auto].
Qed.

Lemma checkAuthenticity_findings (e : Email) (d : string) (result : AnalysisResult)
    (t t2 t3 : Trace) (spf dkim dmarc : string) :
  GetDomain (From e) = Some d → d ≠ "" →
  checkSPF e d t = Some (spf, t2) →
  checkDKIM e d = Some dkim →
  checkDMARC e d t2 = Some (dmarc, t3) →
  checkAuthenticity e result t =
    Some (addFinding (addFinding (addFinding result 3 spf) 3 dkim) 2 dmarc, t3).
Proof.
  intros Hd Hne Hspf Hdkim Hdmarc. unfold detector.checkAuthenticity.
  destruct (GetDomain_nonempty_From _ _ Hd Hne) as [a Ha]. rewrite Ha, <- Ha.
  rewrite (bind_liftP _ _ _ _ Hd).
  rewrite bool_decide_eq_true_2 by assumption.
  rewrite (bind_returns _ _ _ _ _ Hspf), (bind_liftP _ _ _ _ Hdkim).
  rewrite (bind_returns _ _ _ _ _ Hdmarc).
  reflexivity.
Qed.

(** The block of the authenticity checks moves the score by an amount
    that depends on the email and on the lookups made before it only. *)
Lemma checkAuthenticity_score (e : Email) (t1 : Trace) :
  ∃ (F : Z) (t3 : Trace), ∀ result, ∃ result',
    checkAuthenticity e result t1 = Some (result', t3) ∧
    IsSpoofed result' = IsSpoofed result ∧
    wrap_int (Score result') = wrap_int (Score result + F) ∧
    (in_int_range (Score result) → in_int_range (Score result')).
Proof.
  destruct (GetDomain_returns (From e)) as [d Hd].
  destruct (decide (d = "")) as [->|Hne].
  - exists 0, t1. intros result. exists result.
    split; [now apply checkAuthenticity_skipped|].
    split; [reflexivity|]. split; [f_equal; lia|auto].
  - destruct (checkSPF_returns e d t1) as [spf Hspf].
    destruct (checkDKIM_returns e d) as [dkim Hdkim].
    destruct (checkDMARC_returns e d (t1 ++ [d])) as [dmarc Hdmarc].
    exists (findingWeight 3 spf + findingWeight 3 dkim + findingWeight 2 dmarc).
    eexists. intros result. eexists.
    split; [exact (checkAuthenticity_findings e d result _ _ _ _ _ _
                     Hd Hne Hspf Hdkim Hdmarc)|].
    destruct (addFinding_score result 3 spf) as (Hs1 & Hc1 & Hr1).
    destruct (addFinding_score (addFinding result 3 spf) 3 dkim) as (Hs2 & Hc2 & Hr2).
    destruct (addFinding_score (addFinding (addFinding result 3 spf) 3 dkim) 2 dmarc)
      as (Hs3 & Hc3 & Hr3).
    split; [congruence|]. split; [|auto].
    rewrite Hc3, (wrap_int_add_congr _ _ _ Hc2), <- Z.add_assoc.
    rewrite (wrap_int_add_congr _ _ _ Hc1). f_equal. lia.
Qed.

(** The score of [Analyze] from what its two halves add. *)
Lemma Analyze_score (l : list Rule) (e : Email) (t t1 t3 : Trace) (T F : Z) :
  (∀ result, ∃ result',
      applyRules l e result t = Some (result', t1) ∧
      IsSpoofed result' = IsSpoofed result ∧
      wrap_int (Score result') = wrap_int (Score result + T) ∧
      (in_int_range (Score result) → in_int_range (Score result'))) →
  (∀ result, ∃ result',
      checkAuthenticity e result t1 = Some (result', t3) ∧
      IsSpoofed result' = IsSpoofed result ∧
      wrap_int (Score result') = wrap_int (Score result + F) ∧
      (in_int_range (Score result) → in_int_range (Score result'))) →
  ∃ r, Analyze (mkSpoofDetector l) e t = Some (r, t3) ∧
       Score r = wrap_int (T + F) ∧
       IsSpoofed r = (5 <=? Score r).
Proof.
  intros Hrules Hauth. unfold detector.Analyze. cbv zeta. cbn [rules].
  destruct (Hrules {| IsSpoofed := false; Reasons := []; Score := 0 |})
    as (ra & Hra & Hspa & Hsca & Hrga).
  destruct (Hauth ra) as (rb & Hrb & Hspb & Hscb & Hrgb).
  rewrite (bind_returns _ _ _ _ _ Hra), (bind_returns _ _ _ _ _ Hrb).
  cbn [Score IsSpoofed] in *.
  assert (Hscore : Score rb = wrap_int (T + F)).
  { rewrite <- (wrap_int_small (Score rb)).
    - rewrite Hscb, (wrap_int_add_congr _ _ _ Hsca). f_equal.
    - apply Hrgb, Hrga. unfold in_int_range, int_min, int_max. lia. }
  destruct (5 <=? Score rb) eqn:Hge; eexists; (split; [reflexivity|]); cbn.
  - now rewrite Hge.
  - rewrite Hge. split; [assumption|congruence].
Qed.

Lemma standard_rules_permuted (l : list Rule) (e : Email) (t t1 : Trace)
    (c3 : bool * string) :
  checkMissingSPF e t = Some (c3, t1) →
  Permutation l (rules standard) →
  ∀ result, ∃ result',
    applyRules l e result t = Some (result', t1) ∧
    IsSpoofed result' = IsSpoofed result ∧
    wrap_int (Score result') =
      wrap_int (Score result + totalContribution e t (rules standard)) ∧
    (in_int_range (Score result) → in_int_range (Score result')).
Proof.
  intros H3 Hperm. cbn [rules NewSpoofDetector] in *.
  set (r3 := mkRule "missing_spf" "Domain doesn't have SPF record" 2 checkMissingSPF).
  assert (Hin : In r3 l).
  { apply (Permutation_in _ (Permutation_sym Hperm)). unfold Rules. simpl. tauto. }
  destruct (in_split _ _ Hin) as (l1 & l2 & ->).
  assert (Hpure : Forall (pureOn e) (l1 ++ l2)).
  { eapply Permutation_Forall.
    - apply Permutation_sym, (Permutation_cons_inv (a := r3)).
      etransitivity; [apply Permutation_middle|].
      etransitivity; [exact Hperm|].
      unfold Rules. symmetry. apply (Permutation_middle [_; _]).
    - destruct (checkFromReplyToDomainMismatch_returns e) as [c1 H1].
      destruct (checkFromReturnPathDomainMismatch_returns e) as [c2 H2].
      destruct (checkSuspiciousFromDomain_returns e) as [c4 H4].
      destruct (checkMultipleFromHeaders_returns e) as [c5 H5].
      destruct (checkSuspiciousReceivedChain_returns e) as [c6 H6].
      repeat constructor.
      + exists c1. intros t'. simpl. now rewrite H1.
      + exists c2. intros t'. simpl. now rewrite H2.
      + exists c4. intros t'. simpl. now rewrite H4.
      + exists c5. intros t'. simpl. now rewrite H5.
      + exists c6. intros t'. simpl. now rewrite H6. }
  apply Forall_app in Hpure. destruct Hpure as [Hl1 Hl2].
  intros result.
  rewrite <- (totalContribution_Permutation e t _ _ Hperm).
  apply (applyRules_one_impure e l1 l2 r3 t t1 c3 Hl1 Hl2 H3).
Qed.

(** With the rules in any order, [Analyze] returns after the same lookups
    as with the rules in registration order, with the same score and the
    same verdict. *)
Lemma Analyze_permuted_agrees (l : list Rule) (e : Email) (t : Trace) :
  Permutation l (rules standard) →
  ∃ (r r' : AnalysisResult) (t' : Trace),
    Analyze (mkSpoofDetector l) e t = Some (r, t') ∧
    Analyze standard e t = Some (r', t') ∧
    Score r = Score r' ∧
    IsSpoofed r = IsSpoofed r'.
Proof.
  intros Hperm.
  destruct (checkMissingSPF_returns e t) as (c3 & t1 & H3).
  pose proof (standard_rules_permuted l e t t1 c3 H3 Hperm) as Hl.
  pose proof (standard_rules_permuted _ e t t1 c3 H3 (Permutation_refl _)) as Hstd.
  destruct (checkAuthenticity_score e t1) as (F & t3 & Hauth).
  destruct (Analyze_score l e t t1 t3 _ F Hl Hauth) as (r & Hr & Hsc & Hsp).
  destruct (Analyze_score _ e t t1 t3 _ F Hstd Hauth) as (r' & Hr' & Hsc' & Hsp').
  exists r, r', t3. repeat split; try assumption; congruence.
Qed.

(** ** An email that passes every rule and every check *)

Lemma checkFromReplyToDomainMismatch_same (e : Email) (d : string) :
  GetDomain (From e) = Some d → GetDomain (ReplyTo e) = Some d →
  checkFromReplyToDomainMismatch e = Some (false, "").
Proof.
  intros HF HR. unfold checkFromReplyToDomainMismatch.
  destruct (From e) as [a|], (ReplyTo e) as [b|]; try reflexivity.
  rewrite HF, HR. simpl.
  rewrite (bool_decide_eq_false_2 (d ≠ d)) by auto.
  now rewrite andb_false_r.
Qed.

Lemma checkFromReturnPathDomainMismatch_same (e : Email) (d localPart : string) :
  GetDomain (From e) = Some d →
  strings.Split (ReturnPath e) "@" = [localPart; d] →
  checkFromReturnPathDomainMismatch e = Some (false, "").
Proof.
  intros HF HR. unfold checkFromReturnPathDomainMismatch.
  destruct (From e) as [a|]; [|reflexivity].
  case_bool_decide; [reflexivity|].
  rewrite HF, HR. simpl.
  rewrite (bool_decide_eq_false_2 (d ≠ d)) by auto.
  now rewrite andb_false_r.
Qed.

Lemma hasSPFRecord_selected (txtRecords : list string) (record : string) :
  selectedRecord txtRecords "v=spf1" record → hasSPFRecord txtRecords = true.
Proof.
  intros (before & after & -> & Hbefore & Hrec).
  induction Hbefore as [|r before Hr _ IH]; simpl.
  - now rewrite Hrec.
  - now rewrite Hr.
Qed.

Lemma rangeCommonDomains_none (d : string) (keys : list string) :
  (∀ ref, ref ∈ keys → d = ref ∨ isSimilarDomain d ref = false) →
  rangeCommonDomains d keys = (false, "").
Proof.
  induction keys as [|ref rest IH]; intros Hkeys; simpl; [reflexivity|].
  destruct (Hkeys ref) as [->|Hsim]; [left| |].
  - rewrite bool_decide_eq_false_2 by auto. simpl.
    apply IH. intros ref' Hin. apply Hkeys. now right.
  - rewrite Hsim, andb_false_r.
    apply IH. intros ref' Hin. apply Hkeys. now right.
Qed.

Lemma firstPattern_none (header : string) (patterns : list string) :
  (∀ pattern, pattern ∈ patterns → strings.Contains header pattern = false) →
  firstPattern header patterns = None.
Proof.
  induction patterns as [|pattern rest IH]; intros Hall; simpl; [reflexivity|].
  rewrite (Hall pattern) by left.
  apply IH. intros pattern' Hin. apply Hall. now right.
Qed.

Lemma scanReceived_none (receivedHeaders : list string) :
  (∀ header pattern,
      header ∈ receivedHeaders → pattern ∈ suspiciousPatterns →
      strings.Contains (strings.ToLower mapUnicodeLower header) pattern = false) →
  scanReceived mapUnicodeLower receivedHeaders = (false, "").
Proof.
  induction receivedHeaders as [|header rest IH]; intros Hall; [reflexivity|].
  cbn [scanReceived]. rewrite firstPattern_none.
  - apply IH. intros header' pattern Hin. apply Hall. now right.
  - intros pattern. apply Hall. left.
Qed.

(** C9, as the code has it.  Take an email with a From domain [d], the
    same Reply-To domain and the same Return-Path domain, one From header,
    at least one Received header and none that, once lowered, contains a
    suspicious pattern, a first "DKIM-Signature" value that contains [d];
    let [d] be no lookalike of a reference domain, let the first TXT
    record of [d] with the prefix "v=spf1" contain "-all" and the first
    TXT record of "_dmarc.d" with the prefix "v=DMARC1" contain
    "p=reject".  Then [Analyze] returns the score 0, no reason and the
    verdict "not spoofed", after looking up [d] twice and "_dmarc.d"
    once. *)
Theorem clean_email_scores_zero (e : Email) (d localPart signature : string)
    (laterSignatures : list string) (t : Trace) :
  Permutation rangeOrder commonDomains →
  GetDomain (From e) = Some d → d ≠ "" →
  GetDomain (ReplyTo e) = Some d →
  strings.Split (ReturnPath e) "@" = [localPart; d] →
  length (GetAllHeaderValues e "From") = 1%nat →
  GetAllHeaderValues e "Received" ≠ [] →
  (∀ header pattern,
      header ∈ GetAllHeaderValues e "Received" → pattern ∈ suspiciousPatterns →
      strings.Contains (strings.ToLower mapUnicodeLower header) pattern = false) →
  (∀ ref, ref ∈ commonDomains → d = ref ∨ isSimilarDomain d ref = false) →
  (∀ n, ∃ txtRecords record,
      resolver n d = Some txtRecords ∧
      selectedRecord txtRecords "v=spf1" record ∧
      strings.Contains record "-all" = true) →
  Headers e !! "DKIM-Signature" = Some (signature :: laterSignatures) →
  strings.Contains signature d = true →
  (∀ n, ∃ txtRecords record,
      resolver n ("_dmarc." +:+ d) = Some txtRecords ∧
      selectedRecord txtRecords "v=DMARC1" record ∧
      strings.Contains record "p=reject" = true) →
  Analyze standard e t =
    Some ({| IsSpoofed := false; Reasons := []; Score := 0 |},
          t ++ [d; d; "_dmarc." +:+ d]).
Proof.
  intros Hrange HF Hne HR HRP Hfrom Hrcv Hpat Hlook Hspf Hhdr Hsig Hdmarc.
  assert (H1 := checkFromReplyToDomainMismatch_same e d HF HR).
  assert (H2 := checkFromReturnPathDomainMismatch_same e d localPart HF HRP).
  assert (H3 : checkMissingSPF e t = Some ((false, ""), t ++ [d])).
  { rewrite (checkMissingSPF_domain e d t HF Hne).
    destruct (Hspf (length t)) as (txtRecords & record & -> & Hsel & _).
    now rewrite (hasSPFRecord_selected _ _ Hsel). }
  assert (H4 : checkSuspiciousFromDomain e = Some (false, "")).
  { unfold detector.checkSuspiciousFromDomain.
    destruct (GetDomain_nonempty_From _ _ HF Hne) as [a Ha]. rewrite Ha, <- Ha, HF.
    simpl. rewrite bool_decide_eq_false_2 by assumption.
    rewrite rangeCommonDomains_none; [reflexivity|].
    intros ref Hin. apply Hlook. now rewrite <- Hrange. }
  assert (H5 : checkMultipleFromHeaders e = Some (false, "")).
  { unfold checkMultipleFromHeaders. rewrite Hfrom. case_decide; [lia|reflexivity]. }
  assert (H6 : checkSuspiciousReceivedChain e = Some (false, "")).
  { unfold detector.checkSuspiciousReceivedChain.
    case_decide as Hlen.
    - destruct (GetAllHeaderValues e "Received"); [congruence|discriminate].
    - now rewrite scanReceived_none. }
  assert (H7 : checkSPF e d (t ++ [d]) = Some ("", (t ++ [d]) ++ [d])).
  { destruct (Hspf (length (t ++ [d]))) as (txtRecords & record & Hres & Hsel & Hall).
    now apply (checkSPF_selected_strict e d _ txtRecords record). }
  assert (H8 : checkDKIM e d = Some "").
  { unfold checkDKIM, HasHeader, GetHeaderValue. rewrite Hhdr.
    rewrite bool_decide_eq_true_2 by eauto. simpl. now rewrite Hsig. }
  assert (H9 : checkDMARC e d ((t ++ [d]) ++ [d]) =
               Some ("", ((t ++ [d]) ++ [d]) ++ ["_dmarc." +:+ d])).
  { destruct (Hdmarc (length ((t ++ [d]) ++ [d])))
      as (txtRecords & record & Hres & Hsel & Hrej).
    assert (Hrec : record ≠ "")
      by (eapply selected_nonempty; [|exact Hsel]; discriminate).
    unfold detector.checkDMARC, mbind, M_bind, detector.LookupTXT.
    rewrite Hres. cbv zeta.
    rewrite (firstWithPrefix_selected _ _ _ Hsel).
    rewrite bool_decide_eq_false_2 by assumption.
    now rewrite Hrej. }
  rewrite (Analyze_with_domain e d t _ _ _ _ _ _ _ _ _ _ _ _
             HF Hne H1 H2 H3 H4 H5 H6 H7 H8 H9).
  unfold verdict. cbn. repeat rewrite <- app_assoc. reflexivity.
Qed.

(** ** The verdict, for any list of rules *)

Lemma applyRules_IsSpoofed (rs : list Rule) (e : Email) (result result' : AnalysisResult)
    (t t' : Trace) :
  applyRules rs e result t = Some (result', t') → IsSpoofed result' = IsSpoofed result.
Proof.
  revert result t. induction rs as [|r rs IH]; intros result t; simpl.
  - now intros [= <- _].
  - unfold mbind, M_bind.
    destruct (CheckFunc r e t) as [[[triggered reason] t1]|]; [|discriminate].
    intros Hrun. rewrite (IH _ _ Hrun). now destruct triggered.
Qed.

Lemma Analyze_verdict_any_rules (d : SpoofDetector) (e : Email) (t : Trace) :
  match Analyze d e t with
  | Some (r, _) => IsSpoofed r = (5 <=? Score r)
  | None => True
  end.
Proof.
  unfold detector.Analyze. cbv zeta. unfold mbind at 1. unfold M_bind.
  destruct (applyRules _ _ _ _) as [[ra t1]|] eqn:Hra; [|exact I].
  apply applyRules_IsSpoofed in Hra. cbn in Hra.
  destruct (checkAuthenticity_score e t1) as (F & t3 & Hauth).
  destruct (Hauth ra) as (rb & Hrb & Hspb & _).
  rewrite (bind_returns _ _ _ _ _ Hrb).
  destruct (5 <=? Score rb) eqn:Hge; cbn; [now rewrite Hge|].
  rewrite Hge. congruence.
Qed.

End Properties.

(** ** The verdict and its threshold *)

(** C1. For every email, [Analyze] with the standard rules returns a
    result, and in it [IsSpoofed] is true exactly when [Score] is at least
    5; the same holds of whatever [Analyze] returns with any other list of
    rules.  Both sides of the threshold occur: there is an email with the
    score 4, not spoofed, and one with the score 5, spoofed. *)
Theorem Analyze_verdict_threshold :
  (∀ resolver mapUnicodeLower rangeOrder (e : Email) (t : Trace),
     ∃ r t',
       Analyze resolver (NewSpoofDetector resolver mapUnicodeLower rangeOrder) e t
         = Some (r, t') ∧
       IsSpoofed r = (5 <=? Score r)) ∧
  (∀ resolver (d : SpoofDetector) (e : Email) (t : Trace),
     match Analyze resolver d e t with
     | Some (r, _) => IsSpoofed r = (5 <=? Score r)
     | None => True
     end) ∧
  (∃ resolver mapUnicodeLower rangeOrder (e : Email) (t : Trace) r t',
     Analyze resolver (NewSpoofDetector resolver mapUnicodeLower rangeOrder) e t
       = Some (r, t') ∧
     Score r = 4 ∧ IsSpoofed r = false) ∧
  (∃ resolver mapUnicodeLower rangeOrder (e : Email) (t : Trace) r t',
     Analyze resolver (NewSpoofDetector resolver mapUnicodeLower rangeOrder) e t
       = Some (r, t') ∧
     Score r = 5 ∧ IsSpoofed r = true).
Proof.
  split; [|split; [|split]].
  - intros resolver mapUnicodeLower rangeOrder e t.
    destruct (Analyze_standard_returns resolver mapUnicodeLower rangeOrder e t)
      as (r & t' & Hrun & Hr).
    exists r, t'. split; [assumption|]. now rewrite Hr.
  - apply Analyze_verdict_any_rules.
  - exists (zoneResolver (strictZone "mail-paypal.com")), asciiOnly, commonDomains,
           (cleanMail "mail-paypal.com"), [].
    eexists. eexists. split; [vm_compute; reflexivity|]. split; reflexivity.
  - exists failingResolver, asciiOnly, commonDomains, twoFromsMail, [].
    eexists. eexists. split; [vm_compute; reflexivity|]. split; reflexivity.
Qed.

(** ** The theorems at sample inputs *)

Lemma GetDomain_fails_closed_witness :
  strings.Count "alice@example.com@example.org" "@" ≠ 1%nat ∧
  GetDomain (Some (mkAddress "Alice" "alice@example.com@example.org")) = Some "".
Proof.
  assert (H : strings.Count "alice@example.com@example.org" "@" ≠ 1%nat)
    by (vm_compute; discriminate).
  split; [exact H|].
  exact (proj2 (proj2 (proj2 (GetDomain_fails_closed
           (Some (mkAddress "Alice" "alice@example.com@example.org")))))
           _ eq_refl H).
Defined.

Lemma checkSPF_qualifier_precedence_witness :
  strings.Contains "v=spf1 include:_spf.example.net ~all -all" "-all" = true ∧
  strings.Contains "v=spf1 include:_spf.example.net ~all -all" "~all" = true ∧
  checkSPF (zoneResolver bothQualifiersZone) (cleanMail "example.com") "example.com" []
    = Some ("", ["example.com"]).
Proof.
  split; [reflexivity|]. split; [reflexivity|].
  refine (proj1 (checkSPF_qualifier_precedence
                   (zoneResolver bothQualifiersZone) (cleanMail "example.com")
                   "example.com" []
                   ["google-site-verification=abc123";
                    "v=spf1 include:_spf.example.net ~all -all"]
                   "v=spf1 include:_spf.example.net ~all -all" _ _) _).
  - reflexivity.
  - exists ["google-site-verification=abc123"], [].
    split; [reflexivity|]. split; [|reflexivity].
    constructor; [reflexivity|constructor].
  - reflexivity.
Defined.

Lemma lookup_failure_asymmetry_witness :
  checkMissingSPF failingResolver (cleanMail "example.com") []
    = Some ((false, ""), ["example.com"]) ∧
  checkSPF failingResolver (cleanMail "example.com") "example.com" ["example.com"]
    = Some ("SPF lookup failed for domain example.com", ["example.com"; "example.com"]).
Proof.
  assert (Hd : GetDomain (From (cleanMail "example.com")) = Some "example.com")
    by reflexivity.
  assert (Hne : "example.com" ≠ "") by discriminate.
  assert (Hfail : ∀ n, failingResolver n "example.com" = None) by reflexivity.
  destruct (lookup_failure_asymmetry failingResolver asciiOnly commonDomains
              (cleanMail "example.com") "example.com" [] Hd Hne Hfail)
    as (Hrule & Hcheck & _).
  split; [exact Hrule|exact Hcheck].
Defined.

Lemma no_domain_only_structural_witness :
  Analyze failingResolver (NewSpoofDetector failingResolver asciiOnly commonDomains)
          twoFromsMail []
  = Some ({| IsSpoofed := true;
             Reasons := ["Email contains multiple From headers"];
             Score := 5 |}, []).
Proof.
  destruct (no_domain_only_structural failingResolver asciiOnly commonDomains
              twoFromsMail [] (or_introl eq_refl) (or_introl eq_refl))
    as (_ & _ & _ & _ & _ & c5 & c6 & H5 & H6 & Hrun).
  rewrite Hrun.
  vm_compute in H5. vm_compute in H6.
  injection H5 as <-. injection H6 as <-.
  reflexivity.
Defined.

Lemma clean_email_scores_zero_witness :
  Analyze (zoneResolver (strictZone "example.com"))
    (NewSpoofDetector (zoneResolver (strictZone "example.com")) asciiOnly commonDomains)
    (cleanMail "example.com") []
  = Some ({| IsSpoofed := false; Reasons := []; Score := 0 |},
          ["example.com"; "example.com"; "_dmarc.example.com"]).
Proof.
  apply (clean_email_scores_zero
           (zoneResolver (strictZone "example.com")) asciiOnly commonDomains
           (cleanMail "example.com") "example.com" "bounce"
           "v=1; a=rsa-sha256; d=example.com" [] []).
  - apply Permutation_refl.
  - reflexivity.
  - discriminate.
  - reflexivity.
  - reflexivity.
  - reflexivity.
  - discriminate.
  - intros header pattern Hheader. revert pattern. apply Forall_forall.
    revert header Hheader. apply Forall_forall. by_evaluation.
  - apply Forall_forall. by_evaluation.
  - intros n. exists ["v=spf1 -all"], "v=spf1 -all".
    split; [reflexivity|]. split; [|reflexivity].
    exists [], []. split; [reflexivity|]. split; [constructor|reflexivity].
  - reflexivity.
  - reflexivity.
  - intros n. exists ["v=DMARC1; p=reject"], "v=DMARC1; p=reject".
    split; [reflexivity|]. split; [|reflexivity].
    exists [], []. split; [reflexivity|]. split; [constructor|reflexivity].
Defined.

Lemma checkDKIM_first_value_only_witness :
  checkDKIM (mailFrom "example.com" ["from mx.example.net by mx.example.org"]
                      ["v=1; d=example.org"; "v=1; d=example.com"])
            "example.com"
  = Some "DKIM signature domain doesn't match From domain".
Proof.
  refine (proj1 (checkDKIM_first_value_only
                   (zoneResolver (strictZone "example.com")) asciiOnly commonDomains
                   (mailFrom "example.com" ["from mx.example.net by mx.example.org"]
                             ["v=1; d=example.org"; "v=1; d=example.com"])
                   "example.com" "v=1; d=example.org" ["v=1; d=example.com"] []
                   _ _ _ _)).
  - reflexivity.
  - reflexivity.
  - reflexivity.
  - exists "v=1; d=example.com". split; [left|reflexivity].
Defined.

(** ** The second scenario of the spec, as it is worded *)

(** C9, as the spec states it, fails: an email from a lookalike of a
    reference domain satisfies every premise of the scenario, and the rule
    "suspicious From domain" gives it the score 4. *)
Lemma stated_clean_email_can_score :
  ¬ (∀ resolver mapUnicodeLower rangeOrder (e : Email) (d : string) (t : Trace),
       Permutation rangeOrder commonDomains →
       statedCleanEmail resolver e d →
       ∃ t',
         Analyze resolver (NewSpoofDetector resolver mapUnicodeLower rangeOrder) e t
         = Some ({| IsSpoofed := false; Reasons := []; Score := 0 |}, t')).
Proof.
  intros Hclaim.
  destruct (Hclaim (zoneResolver (strictZone "mail-paypal.com")) asciiOnly commonDomains
              (cleanMail "mail-paypal.com") "mail-paypal.com" [] (Permutation_refl _))
    as [t' Hrun].
  - stated_by_evaluation ["v=spf1 -all"] "v=spf1 -all"
                         ["v=DMARC1; p=reject"] "v=DMARC1; p=reject"
                         "v=1; a=rsa-sha256; d=mail-paypal.com".
  - vm_compute in Hrun. discriminate Hrun.
Qed.

(** The other premises the code reads more narrowly than the scenario words
    them: the SPF and the DMARC record looked at are the first with their
    prefix, a message without any Received header is suspicious, and the
    Received headers are lowered before the patterns are searched. *)

Lemma stated_clean_email_second_spf_record :
  statedCleanEmail (zoneResolver twoSPFZone) (cleanMail "example.com") "example.com" ∧
  Analyze (zoneResolver twoSPFZone)
    (NewSpoofDetector (zoneResolver twoSPFZone) asciiOnly commonDomains)
    (cleanMail "example.com") []
  = Some ({| IsSpoofed := false;
             Reasons := ["Domain example.com has a permissive SPF policy"];
             Score := 3 |},
          ["example.com"; "example.com"; "_dmarc.example.com"]).
Proof.
  split; [|vm_compute; reflexivity].
  stated_by_evaluation ["v=spf1 +all"; "v=spf1 -all"] "v=spf1 -all"
                       ["v=DMARC1; p=reject"] "v=DMARC1; p=reject"
                       "v=1; a=rsa-sha256; d=example.com".
Qed.

Lemma stated_clean_email_second_dmarc_record :
  statedCleanEmail (zoneResolver twoDMARCZone) (cleanMail "example.com") "example.com" ∧
  Analyze (zoneResolver twoDMARCZone)
    (NewSpoofDetector (zoneResolver twoDMARCZone) asciiOnly commonDomains)
    (cleanMail "example.com") []
  = Some ({| IsSpoofed := false;
             Reasons := ["Domain example.com has a monitoring-only DMARC policy"];
             Score := 2 |},
          ["example.com"; "example.com"; "_dmarc.example.com"]).
Proof.
  split; [|vm_compute; reflexivity].
  stated_by_evaluation ["v=spf1 -all"] "v=spf1 -all"
                       ["v=DMARC1; p=none"; "v=DMARC1; p=reject"] "v=DMARC1; p=reject"
                       "v=1; a=rsa-sha256; d=example.com".
Qed.

Lemma stated_clean_email_no_received :
  statedCleanEmail (zoneResolver (strictZone "example.com"))
    (mailFrom "example.com" [] ["v=1; d=example.com"]) "example.com" ∧
  Analyze (zoneResolver (strictZone "example.com"))
    (NewSpoofDetector (zoneResolver (strictZone "example.com")) asciiOnly commonDomains)
    (mailFrom "example.com" [] ["v=1; d=example.com"]) []
  = Some ({| IsSpoofed := false;
             Reasons := ["Email doesn't have any Received headers"];
             Score := 2 |},
          ["example.com"; "example.com"; "_dmarc.example.com"]).
Proof.
  split; [|vm_compute; reflexivity].
  stated_by_evaluation ["v=spf1 -all"] "v=spf1 -all"
                       ["v=DMARC1; p=reject"] "v=DMARC1; p=reject"
                       "v=1; d=example.com".
Qed.

Lemma stated_clean_email_uppercase_received :
  statedCleanEmail (zoneResolver (strictZone "example.com"))
    (mailFrom "example.com" ["from LOCALHOST by mx.example.org"] ["v=1; d=example.com"])
    "example.com" ∧
  Analyze (zoneResolver (strictZone "example.com"))
    (NewSpoofDetector (zoneResolver (strictZone "example.com")) asciiOnly commonDomains)
    (mailFrom "example.com" ["from LOCALHOST by mx.example.org"] ["v=1; d=example.com"]) []
  = Some ({| IsSpoofed := false;
             Reasons := ["Suspicious pattern found in Received headers: localhost"];
             Score := 2 |},
          ["example.com"; "example.com"; "_dmarc.example.com"]).
Proof.
  split; [|vm_compute; reflexivity].
  stated_by_evaluation ["v=spf1 -all"] "v=spf1 -all"
                       ["v=DMARC1; p=reject"] "v=DMARC1; p=reject"
                       "v=1; d=example.com".
Qed.

(** * Further properties of the code *)

(** ** Splitting on a byte *)

Lemma Split_without (s : string) (sep : ascii) :
  without sep s → strings.Split s sep = [s].
Proof.
  unfold without. induction s as [|c s IH]; simpl; [reflexivity|].
  destruct (Ascii.eqb c sep); [discriminate|].
  intros H. now rewrite IH.
Qed.

Lemma Split_single (s p : string) (sep : ascii) :
  strings.Split s sep = [p] → p = s ∧ without sep s.
Proof.
  intros H. assert (Hc : without sep s).
  { pose proof (Split_length s sep) as Hl. rewrite H in Hl. simpl in Hl.
    unfold without. lia. }
  split; [|assumption]. rewrite (Split_without _ _ Hc) in H. congruence.
Qed.

(** [Split] gives exactly two parts for the strings with exactly one
    separator, and the parts are what stands before and after it. *)
Lemma Split_two_parts (s l d : string) (sep : ascii) :
  strings.Split s sep = [l; d] ↔
  s = l +:+ String sep d ∧ without sep l ∧ without sep d.
Proof.
  split.
  - revert l. induction s as [|c s IH]; intros l; simpl; [discriminate|].
    destruct (Ascii.eqb c sep) eqn:Hc.
    + apply Ascii.eqb_eq in Hc as ->.
      intros [= <- Hs]. apply Split_single in Hs as [-> Hd].
      split; [reflexivity|]. split; [reflexivity|assumption].
    + destruct (strings.Split s sep) as [|p ps] eqn:Hs; [discriminate|].
      intros [= <- ->]. destruct (IH p eq_refl) as (-> & Hp & Hd).
      split; [reflexivity|]. split; [|assumption].
      unfold without in *. simpl. now rewrite Hc.
  - intros (-> & Hl & Hd). induction l as [|c l IH]; simpl.
    + rewrite Ascii.eqb_refl. now rewrite (Split_without _ _ Hd).
    + unfold without in Hl. simpl in Hl.
      destruct (Ascii.eqb c sep); [discriminate|].
      now rewrite (IH Hl).
Qed.

(** ** Addresses and their domain *)

(** X1. What [GetDomain] returns for an address that is not nil: [d] is
    returned exactly when the address string is some [l], one "@" and [d]
    with no "@" in [l] or [d], or when [d] is empty and the address string
    does not hold exactly one "@".  So a domain returned is never a piece
    of a longer one and never holds an "@". *)
Theorem GetDomain_splits_address (a : Address) (d : string) :
  GetDomain (Some a) = Some d ↔
  (∃ l, Addr a = l +:+ "@" +:+ d ∧ without "@" l ∧ without "@" d)
  ∨ (d = "" ∧ strings.Count (Addr a) "@" ≠ 1%nat).
Proof.
  change (GetDomain (Some a)) with
    (if decide (length (strings.Split (Addr a) "@") ≠ 2%nat) then Some ""
     else index (strings.Split (Addr a) "@") 1).
  pose proof (Split_length (Addr a) "@") as Hlen.
  case_decide as Hparts.
  - split.
    + intros [= <-]. right. split; [reflexivity|lia].
    + intros [(l & Hl)|[-> _]]; [|reflexivity].
      apply (Split_two_parts (Addr a) l d "@") in Hl. rewrite Hl in Hparts.
      now destruct Hparts.
  - destruct (strings.Split (Addr a) "@") as [|l0 [|d0 [|]]] eqn:Hs;
      simpl in Hparts; try lia.
    unfold index. simpl. split.
    + intros [= <-]. left. exists l0. now apply Split_two_parts.
    + intros [(l & Hl)|[_ Hc]].
      * apply (Split_two_parts (Addr a) l d "@") in Hl. congruence.
      * simpl in Hlen. lia.
Qed.

(** X2. [ExtractEmailParts] succeeds with the parts [l] and [d] exactly on
    the strings made of [l], one "@" and [d] with no "@" in either, so
    joining the parts it returns with "@" gives the input back; it reports
    "invalid email format", with empty parts, exactly on the strings that
    do not hold exactly one "@"; and it returns in every case. *)
Theorem ExtractEmailParts_round_trip (email : string) :
  (∀ l d, utils.ExtractEmailParts email = Some (l, d, None) ↔
          email = l +:+ "@" +:+ d ∧ without "@" l ∧ without "@" d) ∧
  (utils.ExtractEmailParts email = Some ("", "", Some "invalid email format") ↔
   strings.Count email "@" ≠ 1%nat) ∧
  (∃ result, utils.ExtractEmailParts email = Some result).
Proof.
  unfold utils.ExtractEmailParts. cbv zeta.
  pose proof (Split_length email "@") as Hlen.
  case_decide as Hparts.
  - split; [|split; [|eauto]].
    + intros l d. split; [discriminate|].
      intros Hl. apply (Split_two_parts email l d "@") in Hl.
      rewrite Hl in Hparts. now destruct Hparts.
    + split; [intros _; lia|reflexivity].
  - destruct (strings.Split email "@") as [|l0 [|d0 [|]]] eqn:Hs;
      simpl in Hparts; try lia.
    unfold index. simpl. split; [|split; [|eauto]].
    + intros l d. split.
      * intros [= <- <-]. now apply Split_two_parts.
      * intros Hl. apply (Split_two_parts email l d "@") in Hl. congruence.
    + split; [discriminate|]. simpl in Hlen. lia.
Qed.

(** X3. [ExtractEmailParts] and [GetDomain] agree on every address: where
    the first succeeds, its domain is the one [GetDomain] returns, and where
    it reports an error [GetDomain] returns the empty string. *)
Theorem ExtractEmailParts_agrees_with_GetDomain (a : Address) :
  (∃ l d, utils.ExtractEmailParts (Addr a) = Some (l, d, None) ∧
          GetDomain (Some a) = Some d)
  ∨ (utils.ExtractEmailParts (Addr a) = Some ("", "", Some "invalid email format") ∧
     GetDomain (Some a) = Some "").
Proof.
  unfold utils.ExtractEmailParts, GetDomain. cbv zeta.
  case_decide as Hparts; [right; split; reflexivity|].
  destruct (strings.Split (Addr a) "@") as [|l0 [|d0 [|]]] eqn:Hs;
    simpl in Hparts; try lia.
  left. exists l0, d0. split; reflexivity.
Qed.

(** ** The header accessors *)

(** X4. The three accessors agree: [GetHeaderValue] never panics and
    returns the first of the values [GetAllHeaderValues] returns, the empty
    string when there is none; and a header that has a value is one
    [HasHeader] reports.  ([HasHeader] can report a header that has no
    value: a key bound to an empty slice.) *)
Theorem header_accessors_agree (e : Email) (name : string) :
  GetHeaderValue e name = Some (default "" (head (GetAllHeaderValues e name))) ∧
  (HasHeader e name = true ∨ GetAllHeaderValues e name = []).
Proof.
  unfold GetHeaderValue, GetAllHeaderValues, HasHeader, index.
  destruct (Headers e !! name) as [[|v values]|]; simpl.
  - split; [reflexivity|now right].
  - split; [reflexivity|]. left. reflexivity.
  - split; [reflexivity|now right].
Qed.

Section MoreProperties.

Variable resolver : nat → string → option (list string).
Variable mapUnicodeLower : string → string.
Variable rangeOrder : list string.

Abbreviation standard := (NewSpoofDetector resolver mapUnicodeLower rangeOrder).
Abbreviation checkMissingSPF := (checkMissingSPF resolver).
Abbreviation checkSuspiciousFromDomain := (checkSuspiciousFromDomain rangeOrder).
Abbreviation checkSuspiciousReceivedChain := (checkSuspiciousReceivedChain mapUnicodeLower).
Abbreviation checkSPF := (checkSPF resolver).
Abbreviation checkDMARC := (checkDMARC resolver).
Abbreviation Analyze := (Analyze resolver).

(** ** The findings of the three authenticity checks *)

Lemma selected_or_none (txtRecords : list string) (pre : string) :
  pre ≠ "" →
  Forall (λ r, strings.HasPrefix r pre = false) txtRecords
  ∨ ∃ record, selectedRecord txtRecords pre record.
Proof.
  intros Hpre.
  destruct (decide (firstWithPrefix txtRecords pre = "")) as [Hnone|Hsome].
  - left. now apply firstWithPrefix_none.
  - right. eexists. now apply firstWithPrefix_found.
Qed.

Lemma selected_not_none (txtRecords : list string) (pre record : string) :
  pre ≠ "" →
  selectedRecord txtRecords pre record →
  Forall (λ r, strings.HasPrefix r pre = false) txtRecords → False.
Proof.
  intros Hpre Hsel Hnone.
  apply firstWithPrefix_none in Hnone; [|assumption].
  rewrite (firstWithPrefix_selected _ _ _ Hsel) in Hnone.
  now apply (selected_nonempty _ _ _ Hpre Hsel).
Qed.

(** X5. [checkSPF] is silent exactly when the lookup of the domain
    succeeds and the first TXT record with the prefix "v=spf1" contains
    "-all" or "~all"; a failed lookup, an answer without such a record and
    a record with neither qualifier all give a finding. *)
Theorem checkSPF_silent_iff (e : Email) (domain : string) (t : Trace) :
  checkSPF e domain t = Some ("", t ++ [domain]) ↔
  ∃ txtRecords record,
    resolver (length t) domain = Some txtRecords ∧
    selectedRecord txtRecords "v=spf1" record ∧
    (strings.Contains record "-all" = true ∨ strings.Contains record "~all" = true).
Proof.
  unfold detector.checkSPF, mbind, M_bind, detector.LookupTXT.
  destruct (resolver (length t) domain) as [txtRecords|]; cycle 1.
  { split; [discriminate|]. intros (? & ? & ? & _). discriminate. }
  cbv zeta. case_bool_decide as Hfirst.
  - split; [discriminate|]. intros (? & record & [= <-] & Hsel & _).
    rewrite (firstWithPrefix_selected _ _ _ Hsel) in Hfirst.
    now apply (selected_nonempty _ "v=spf1" _) in Hsel.
  - pose proof (firstWithPrefix_found _ _ Hfirst) as Hsel.
    set (record := firstWithPrefix txtRecords "v=spf1") in *.
    assert (Hsame : ∀ record', selectedRecord txtRecords "v=spf1" record' → record' = record).
    { intros record' Hsel'. now rewrite <- (firstWithPrefix_selected _ _ _ Hsel'). }
    destruct (strings.Contains record "-all") eqn:Hstrict.
    { split; [|reflexivity]. intros _. exists txtRecords, record. auto. }
    destruct (strings.Contains record "~all") eqn:Hsoft.
    { split; [|reflexivity]. intros _. exists txtRecords, record. auto. }
    split.
    + destruct (strings.Contains record "?all"); discriminate.
    + intros (? & record' & [= <-] & Hsel' & Hq).
      rewrite (Hsame _ Hsel') in Hq. destruct Hq; congruence.
Qed.

(** X6. [checkDMARC] is silent exactly when the lookup of "_dmarc." and
    the domain succeeds and the first TXT record with the prefix "v=DMARC1"
    contains "p=reject" or "p=quarantine". *)
Theorem checkDMARC_silent_iff (e : Email) (domain : string) (t : Trace) :
  checkDMARC e domain t = Some ("", t ++ ["_dmarc." +:+ domain]) ↔
  ∃ txtRecords record,
    resolver (length t) ("_dmarc." +:+ domain) = Some txtRecords ∧
    selectedRecord txtRecords "v=DMARC1" record ∧
    (strings.Contains record "p=reject" = true
     ∨ strings.Contains record "p=quarantine" = true).
Proof.
  unfold detector.checkDMARC, mbind, M_bind, detector.LookupTXT. cbv zeta.
  destruct (resolver (length t) ("_dmarc." +:+ domain)) as [txtRecords|]; cycle 1.
  { split; [discriminate|]. intros (? & ? & ? & _). discriminate. }
  case_bool_decide as Hfirst.
  - split; [discriminate|]. intros (? & record & [= <-] & Hsel & _).
    rewrite (firstWithPrefix_selected _ _ _ Hsel) in Hfirst.
    now apply (selected_nonempty _ "v=DMARC1" _) in Hsel.
  - pose proof (firstWithPrefix_found _ _ Hfirst) as Hsel.
    set (record := firstWithPrefix txtRecords "v=DMARC1") in *.
    assert (Hsame : ∀ record', selectedRecord txtRecords "v=DMARC1" record' → record' = record).
    { intros record' Hsel'. now rewrite <- (firstWithPrefix_selected _ _ _ Hsel'). }
    destruct (strings.Contains record "p=reject") eqn:Hreject.
    { split; [|reflexivity]. intros _. exists txtRecords, record. auto. }
    destruct (strings.Contains record "p=quarantine") eqn:Hquarantine.
    { split; [|reflexivity]. intros _. exists txtRecords, record. auto. }
    split.
    + destruct (strings.Contains record "p=none"); discriminate.
    + intros (? & record' & [= <-] & Hsel' & Hq).
      rewrite (Hsame _ Hsel') in Hq. destruct Hq; congruence.
Qed.

(** X7. The finding of [checkDMARC] from the answer to its one lookup, of
    "_dmarc." and the domain: a failed lookup gives "DMARC lookup failed",
    an answer without a record of prefix "v=DMARC1" gives "doesn't have a
    DMARC record", and on the first such record the policies are tried in
    the order "p=reject", "p=quarantine" (both silent), "p=none"
    (monitoring-only), with "unknown DMARC policy" when none is there. *)
Theorem checkDMARC_findings (e : Email) (domain : string) (t : Trace) :
  let lookup := resolver (length t) ("_dmarc." +:+ domain) in
  let returns finding := checkDMARC e domain t = Some (finding, t ++ ["_dmarc." +:+ domain]) in
  (lookup = None → returns ("DMARC lookup failed for domain " +:+ domain)) ∧
  (∀ txtRecords,
     lookup = Some txtRecords →
     Forall (λ r, strings.HasPrefix r "v=DMARC1" = false) txtRecords →
     returns ("Domain " +:+ domain +:+ " doesn't have a DMARC record")) ∧
  (∀ txtRecords record,
     lookup = Some txtRecords →
     selectedRecord txtRecords "v=DMARC1" record →
     (strings.Contains record "p=reject" = true → returns "") ∧
     (strings.Contains record "p=reject" = false →
      strings.Contains record "p=quarantine" = true → returns "") ∧
     (strings.Contains record "p=reject" = false →
      strings.Contains record "p=quarantine" = false →
      strings.Contains record "p=none" = true →
      returns ("Domain " +:+ domain +:+ " has a monitoring-only DMARC policy")) ∧
     (strings.Contains record "p=reject" = false →
      strings.Contains record "p=quarantine" = false →
      strings.Contains record "p=none" = false →
      returns ("Domain " +:+ domain +:+ " has an unknown DMARC policy"))).
Proof.
  cbv zeta. unfold detector.checkDMARC, mbind, M_bind, detector.LookupTXT. cbv zeta.
  split; [now intros ->|]. split.
  - intros txtRecords -> Hnone.
    apply firstWithPrefix_none in Hnone; [|discriminate].
    now rewrite Hnone.
  - intros txtRecords record -> Hsel.
    assert (Hne : record ≠ "") by (eapply selected_nonempty; [|exact Hsel]; discriminate).
    rewrite (firstWithPrefix_selected _ _ _ Hsel).
    rewrite bool_decide_eq_false_2 by assumption.
    split; [now intros ->|]. split; [now intros -> ->|].
    split; now intros -> -> ->.
Qed.

(** X8. [checkDKIM] is silent exactly when the key "DKIM-Signature" is in
    the headers and the first value under it (the empty string when the key
    holds no value) contains the domain; it never panics.  Without the key
    the finding is "Email doesn't have a DKIM signature", in every other
    case "DKIM signature domain doesn't match From domain". *)
Theorem checkDKIM_findings (e : Email) (domain : string) :
  (checkDKIM e domain = Some "" ↔
   ∃ values, Headers e !! "DKIM-Signature" = Some values ∧
             strings.Contains (default "" (head values)) domain = true) ∧
  (checkDKIM e domain = Some "Email doesn't have a DKIM signature" ↔
   Headers e !! "DKIM-Signature" = None) ∧
  (checkDKIM e domain = Some "" ∨
   checkDKIM e domain = Some "Email doesn't have a DKIM signature" ∨
   checkDKIM e domain = Some "DKIM signature domain doesn't match From domain").
Proof.
  unfold checkDKIM, HasHeader, GetHeaderValue, index.
  destruct (Headers e !! "DKIM-Signature") as [values|] eqn:Hhdr.
  - rewrite bool_decide_eq_true_2 by eauto. cbn [negb].
    assert (Hvalue : (if decide (length values = 0%nat) then Some ""
                      else values !! 0%nat) = Some (default "" (head values)))
      by now destruct values.
    rewrite Hvalue. cbn [mbind option_bind].
    destruct (strings.Contains (default "" (head values)) domain) eqn:Hc; cbn [negb].
    + split; [|split; [|now left]].
      * split; [intros _; exists values; auto|reflexivity].
      * split; discriminate.
    + split; [|split; [|now right; right]].
      * split; [discriminate|]. intros (? & [= <-] & ?). congruence.
      * split; discriminate.
  - rewrite bool_decide_eq_false_2 by (intros [? ?]; discriminate). cbn [negb].
    split; [|split; [|now right; left]].
    + split; [discriminate|]. intros (? & ? & _). discriminate.
    + split; reflexivity.
Qed.

(** ** The result of [Analyze] from the signals of the email *)

Lemma Analyze_signals (e : Email) (t : Trace) :
  ∃ d s, signalsOf resolver mapUnicodeLower rangeOrder e t d s ∧
         Analyze standard e t =
           Some (verdict (reasonsOf s) (scoreOf s), t ++ lookupsFor d).
Proof.
  destruct (checkFromReplyToDomainMismatch_returns e) as [c1 H1].
  destruct (checkFromReturnPathDomainMismatch_returns e) as [c2 H2].
  destruct (checkSuspiciousFromDomain_returns rangeOrder e) as [c4 H4].
  destruct (checkMultipleFromHeaders_returns e) as [c5 H5].
  destruct (checkSuspiciousReceivedChain_returns mapUnicodeLower e) as [c6 H6].
  destruct (GetDomain_returns (From e)) as [d Hd].
  exists d. unfold signalsOf, lookupsFor.
  destruct (decide (d = "")) as [->|Hne].
  - pose proof (checkFromReplyToDomainMismatch_no_domain e Hd) as H1'.
    pose proof (checkFromReturnPathDomainMismatch_no_domain e Hd) as H2'.
    pose proof (checkMissingSPF_no_domain resolver e t Hd) as H3'.
    pose proof (checkSuspiciousFromDomain_no_domain rangeOrder e Hd) as H4'.
    exists (mkSignals (false, "") (false, "") (false, "") (false, "") c5 c6 "" "" "").
    cbn [fromReplyTo fromReturnPath missingSPF suspiciousFrom multipleFrom
         receivedChain spfFinding dkimFinding dmarcFinding].
    split.
    + do 3 (split; [assumption|]). split; [eauto|].
      do 3 (split; [assumption|]). left. auto.
    + rewrite (Analyze_without_domain resolver mapUnicodeLower rangeOrder e t c5 c6 Hd H5 H6).
      rewrite app_nil_r. unfold reasonsOf, scoreOf. cbn.
      assert (Hr : findingReason "" = []) by reflexivity.
      assert (Hw : ∀ w, findingWeight w "" = 0) by reflexivity.
      rewrite Hr, !Hw, !app_nil_r. do 3 f_equal. lia.
  - pose proof (checkMissingSPF_domain resolver e d t Hd Hne) as H3.
    destruct (checkSPF_returns resolver e d (t ++ [d])) as [spf Hspf].
    destruct (checkDKIM_returns e d) as [dkim Hdkim].
    destruct (checkDMARC_returns resolver e d ((t ++ [d]) ++ [d])) as [dmarc Hdmarc].
    eexists (mkSignals c1 c2 _ c4 c5 c6 spf dkim dmarc).
    cbn [fromReplyTo fromReturnPath missingSPF suspiciousFrom multipleFrom
         receivedChain spfFinding dkimFinding dmarcFinding].
    split.
    + do 3 (split; [assumption|]). split; [eauto|].
      do 3 (split; [assumption|]). right. auto.
    + rewrite (Analyze_with_domain resolver mapUnicodeLower rangeOrder e d t _ _ _
                 c1 c2 _ c4 c5 c6 spf dkim dmarc Hd Hne H1 H2 H3 H4 H5 H6 Hspf Hdkim Hdmarc).
      unfold reasonsOf, scoreOf. cbn. repeat rewrite <- app_assoc. reflexivity.
Qed.

(** C8. With the rules in any order, [Analyze] returns a result whose score
    is the sum of the weights of the rules that trigger on the email (3, 3,
    2, 4, 5, 2 for the six rules) and of the weights of the findings that
    are not empty (3 for SPF, 3 for DKIM, 2 for DMARC): the sum [scoreOf]
    of the signals of the email, which does not mention the order.  So the
    score, and with it the verdict and the lookups, are those of the rules
    in registration order. *)
Theorem Analyze_score_order_independent (l : list Rule) (e : Email) (t : Trace) :
  Permutation l (rules standard) →
  ∃ (r r' : AnalysisResult) (t' : Trace) (d : string) (s : Signals),
    Analyze (mkSpoofDetector l) e t = Some (r, t') ∧
    Analyze standard e t = Some (r', t') ∧
    signalsOf resolver mapUnicodeLower rangeOrder e t d s ∧
    Score r = scoreOf s ∧
    Score r = Score r' ∧
    IsSpoofed r = IsSpoofed r'.
Proof.
  intros Hperm.
  destruct (Analyze_permuted_agrees resolver mapUnicodeLower rangeOrder l e t Hperm)
    as (r & r' & t' & Hrun & Hstd & Hscore & Hverdict).
  destruct (Analyze_signals e t) as (d & s & Hs & Hsignals).
  exists r, r', t', d, s.
  split; [assumption|]. split; [assumption|]. split; [assumption|].
  assert (Hr' : r' = verdict (reasonsOf s) (scoreOf s)) by congruence.
  split; [|split; assumption].
  rewrite Hscore, Hr'. reflexivity.
Qed.

(** ** Invariants of the result *)

Lemma ruleReason_length (w : Z) (c : bool * string) :
  ruleWeight w c = w * Z.of_nat (length (ruleReason c)) ∧
  (length (ruleReason c) ≤ 1)%nat.
Proof. unfold ruleWeight, ruleReason. destruct c.1; simpl; lia. Qed.

Lemma findingReason_length (w : Z) (finding : string) :
  findingWeight w finding = w * Z.of_nat (length (findingReason finding)) ∧
  (length (findingReason finding) ≤ 1)%nat.
Proof. unfold findingWeight, findingReason. case_bool_decide; simpl; lia. Qed.

Lemma scoreOf_bounds (s : Signals) :
  0 ≤ scoreOf s ≤ 27 ∧
  (length (reasonsOf s) ≤ 9)%nat ∧
  2 * Z.of_nat (length (reasonsOf s)) ≤ scoreOf s ≤ 5 * Z.of_nat (length (reasonsOf s)).
Proof.
  unfold scoreOf, reasonsOf. rewrite !length_app.
  destruct (ruleReason_length 3 (fromReplyTo s)) as [-> ?].
  destruct (ruleReason_length 3 (fromReturnPath s)) as [-> ?].
  destruct (ruleReason_length 2 (missingSPF s)) as [-> ?].
  destruct (ruleReason_length 4 (suspiciousFrom s)) as [-> ?].
  destruct (ruleReason_length 5 (multipleFrom s)) as [-> ?].
  destruct (ruleReason_length 2 (receivedChain s)) as [-> ?].
  destruct (findingReason_length 3 (spfFinding s)) as [-> ?].
  destruct (findingReason_length 3 (dkimFinding s)) as [-> ?].
  destruct (findingReason_length 2 (dmarcFinding s)) as [-> ?].
  lia.
Qed.

(** The reason of a triggered rule is never the empty string. *)

Lemma checkFromReplyToDomainMismatch_reason (e : Email) (c : bool * string) :
  checkFromReplyToDomainMismatch e = Some c → c.1 = true → c.2 ≠ "".
Proof.
  unfold checkFromReplyToDomainMismatch.
  destruct (From e) as [a|], (ReplyTo e) as [b|]; try reason_case.
  destruct (GetDomain_returns (Some a)) as [d ->].
  destruct (GetDomain_returns (Some b)) as [d' ->]. simpl.
  destruct (_ && _); reason_case.
Qed.

Lemma checkFromReturnPathDomainMismatch_reason (e : Email) (c : bool * string) :
  checkFromReturnPathDomainMismatch e = Some c → c.1 = true → c.2 ≠ "".
Proof.
  unfold checkFromReturnPathDomainMismatch.
  destruct (From e) as [a|]; try reason_case.
  case_bool_decide; try reason_case.
  destruct (GetDomain_returns (Some a)) as [d ->]. simpl.
  case_decide as Hlen; try reason_case.
  destruct (index_in_range (strings.Split (ReturnPath e) "@") 1) as [d' ->]; [lia|].
  simpl. destruct (_ && _); reason_case.
Qed.

Lemma checkMissingSPF_reason (e : Email) (t t1 : Trace) (c : bool * string) :
  checkMissingSPF e t = Some (c, t1) → c.1 = true → c.2 ≠ "".
Proof.
  destruct (GetDomain_returns (From e)) as [d Hd].
  destruct (decide (d = "")) as [->|Hne].
  - rewrite (checkMissingSPF_no_domain resolver e t Hd). intros [= <- _]. discriminate.
  - rewrite (checkMissingSPF_domain resolver e d t Hd Hne).
    destruct (resolver (length t) d) as [txtRecords|]; [|reason_case].
    destruct (hasSPFRecord txtRecords); reason_case.
Qed.

Lemma rangeCommonDomains_reason (d : string) (keys : list string) :
  (rangeCommonDomains d keys).1 = true → (rangeCommonDomains d keys).2 ≠ "".
Proof.
  induction keys as [|key keys IH]; simpl; [discriminate|].
  destruct (_ && _); [discriminate|assumption].
Qed.

Lemma checkSuspiciousFromDomain_reason (e : Email) (c : bool * string) :
  checkSuspiciousFromDomain e = Some c → c.1 = true → c.2 ≠ "".
Proof.
  unfold detector.checkSuspiciousFromDomain.
  destruct (From e) as [a|]; try reason_case.
  destruct (GetDomain_returns (Some a)) as [d ->]. simpl.
  case_bool_decide; [reason_case|intros [= <-]].
  apply rangeCommonDomains_reason.
Qed.

Lemma checkMultipleFromHeaders_reason (e : Email) (c : bool * string) :
  checkMultipleFromHeaders e = Some c → c.1 = true → c.2 ≠ "".
Proof. unfold checkMultipleFromHeaders. case_decide; reason_case. Qed.

Lemma scanReceived_reason (receivedHeaders : list string) :
  (scanReceived mapUnicodeLower receivedHeaders).1 = true →
  (scanReceived mapUnicodeLower receivedHeaders).2 ≠ "".
Proof.
  induction receivedHeaders as [|header rest IH]; [discriminate|].
  cbn [scanReceived]. destruct (firstPattern _ _); [discriminate|assumption].
Qed.

Lemma checkSuspiciousReceivedChain_reason (e : Email) (c : bool * string) :
  checkSuspiciousReceivedChain e = Some c → c.1 = true → c.2 ≠ "".
Proof.
  unfold detector.checkSuspiciousReceivedChain.
  case_decide; [reason_case|intros [= <-]]. apply scanReceived_reason.
Qed.

Lemma ruleReason_nonempty (c : bool * string) :
  (c.1 = true → c.2 ≠ "") → Forall (λ reason, reason ≠ "") (ruleReason c).
Proof.
  unfold ruleReason. destruct c as [[] reason]; simpl; intros H; repeat constructor.
  now apply H.
Qed.

Lemma findingReason_nonempty (finding : string) :
  Forall (λ reason, reason ≠ "") (findingReason finding).
Proof. unfold findingReason. case_bool_decide; repeat constructor. assumption. Qed.

(** X9. Whatever the email, [Analyze] returns a result whose score lies
    between 0 and 27 and between twice and five times the number of its
    reasons, of which there are at most nine; the score is 0 exactly when
    there is no reason, and no reason is the empty string. *)
Theorem Analyze_result_invariants (e : Email) (t : Trace) :
  ∃ r t',
    Analyze standard e t = Some (r, t') ∧
    0 ≤ Score r ≤ 27 ∧
    (length (Reasons r) ≤ 9)%nat ∧
    2 * Z.of_nat (length (Reasons r)) ≤ Score r ≤ 5 * Z.of_nat (length (Reasons r)) ∧
    (Score r = 0 ↔ Reasons r = []) ∧
    Forall (λ reason, reason ≠ "") (Reasons r).
Proof.
  destruct (Analyze_signals e t) as (d & s & Hs & Hrun).
  exists (verdict (reasonsOf s) (scoreOf s)), (t ++ lookupsFor d).
  split; [assumption|]. cbn [verdict Score Reasons].
  destruct (scoreOf_bounds s) as (Hscore & Hlen & Hboth).
  do 3 (split; [assumption|]). split.
  - split.
    + intros Hzero. apply length_zero_iff_nil. lia.
    + intros Hnil. rewrite Hnil in Hboth. simpl in Hboth. lia.
  - destruct Hs as (_ & H1 & H2 & [t1 H3] & H4 & H5 & H6 & _).
    unfold reasonsOf. repeat (apply Forall_app; split).
    + apply ruleReason_nonempty, (checkFromReplyToDomainMismatch_reason e _ H1).
    + apply ruleReason_nonempty, (checkFromReturnPathDomainMismatch_reason e _ H2).
    + apply ruleReason_nonempty, (checkMissingSPF_reason e _ _ _ H3).
    + apply ruleReason_nonempty, (checkSuspiciousFromDomain_reason e _ H4).
    + apply ruleReason_nonempty, (checkMultipleFromHeaders_reason e _ H5).
    + apply ruleReason_nonempty, (checkSuspiciousReceivedChain_reason e _ H6).
    + apply findingReason_nonempty.
    + apply findingReason_nonempty.
    + apply findingReason_nonempty.
Qed.

(** X10. The names [Analyze] looks up: none when the email has no From
    domain; otherwise the From domain twice (once for the rule "missing
    SPF", once for the SPF check) and then "_dmarc." and the From domain,
    whatever the answers are. *)
Theorem Analyze_lookups (e : Email) (t : Trace) :
  ∃ d r,
    GetDomain (From e) = Some d ∧
    Analyze standard e t =
      Some (r, t ++ (if decide (d = "") then [] else [d; d; "_dmarc." +:+ d])).
Proof.
  destruct (Analyze_signals e t) as (d & s & (Hd & _) & Hrun).
  exists d. eexists. split; [assumption|]. exact Hrun.
Qed.

(** ** Signals that decide the verdict *)

Lemma verdict_spoofed (reasons : list string) (score : Z) :
  5 ≤ score → IsSpoofed (verdict reasons score) = true.
Proof. intros H. unfold verdict. cbn. now apply Z.leb_le. Qed.

Lemma scoreOf_terms (s : Signals) :
  0 ≤ ruleWeight 3 (fromReplyTo s) ∧ 0 ≤ ruleWeight 3 (fromReturnPath s) ∧
  0 ≤ ruleWeight 2 (missingSPF s) ∧ 0 ≤ ruleWeight 4 (suspiciousFrom s) ∧
  0 ≤ ruleWeight 5 (multipleFrom s) ∧ 0 ≤ ruleWeight 2 (receivedChain s) ∧
  0 ≤ findingWeight 3 (spfFinding s) ∧ 0 ≤ findingWeight 3 (dkimFinding s) ∧
  0 ≤ findingWeight 2 (dmarcFinding s).
Proof.
  unfold ruleWeight, findingWeight.
  repeat split; repeat case_bool_decide;
    repeat match goal with |- context [if ?c.1 then _ else _] => destruct c.1 end; lia.
Qed.

Lemma findingWeight_nonempty (w : Z) (finding : string) :
  finding ≠ "" → findingWeight w finding = w ∧ findingReason finding = [finding].
Proof.
  intros H. unfold findingWeight, findingReason.
  now rewrite bool_decide_eq_true_2 by assumption.
Qed.

(** X11. A From domain whose TXT records hold no record of prefix "v=spf1"
    (at both lookups of the domain) is enough for the verdict "spoofed":
    the rule "missing SPF" and the SPF check both report it, with the same
    text, which adds 2 and 3 to the score. *)
Theorem missing_SPF_record_is_spoofed (e : Email) (d : string) (t : Trace)
    (txtRecords txtRecords' : list string) :
  GetDomain (From e) = Some d → d ≠ "" →
  resolver (length t) d = Some txtRecords →
  resolver (S (length t)) d = Some txtRecords' →
  Forall (λ r, strings.HasPrefix r "v=spf1" = false) txtRecords →
  Forall (λ r, strings.HasPrefix r "v=spf1" = false) txtRecords' →
  ∃ r t' before between after,
    Analyze standard e t = Some (r, t') ∧
    IsSpoofed r = true ∧
    Reasons r = before ++ ["Domain " +:+ d +:+ " doesn't have an SPF record"]
                ++ between ++ ["Domain " +:+ d +:+ " doesn't have an SPF record"]
                ++ after.
Proof.
  intros Hd Hne Hres Hres' Hnone Hnone'.
  destruct (Analyze_signals e t) as (d' & s & Hs & Hrun).
  destruct Hs as (Hd' & _ & _ & [t1 H3] & _ & _ & _ & Hauth).
  assert (d' = d) as -> by congruence.
  destruct Hauth as [[-> _]|(_ & Hspf & _)]; [now destruct Hne|].
  rewrite (checkMissingSPF_domain resolver e d t Hd Hne), Hres in H3.
  assert (Hrule : hasSPFRecord txtRecords = false).
  { clear -Hnone. induction Hnone as [|r l Hr _ IH]; simpl; [reflexivity|].
    now rewrite Hr. }
  rewrite Hrule in H3. injection H3 as H3 _.
  unfold detector.checkSPF, mbind, M_bind, detector.LookupTXT in Hspf.
  rewrite length_app, Nat.add_1_r, Hres' in Hspf. cbv zeta in Hspf.
  apply firstWithPrefix_none in Hnone'; [|discriminate].
  rewrite Hnone' in Hspf. cbn in Hspf. injection Hspf as Hspf.
  set (msg := "Domain " +:+ d +:+ " doesn't have an SPF record") in *.
  assert (Hmsg : msg ≠ "") by discriminate.
  destruct (findingWeight_nonempty 3 msg Hmsg) as [Hw Hr].
  eexists. eexists.
  exists (ruleReason (fromReplyTo s) ++ ruleReason (fromReturnPath s)),
         (ruleReason (suspiciousFrom s) ++ ruleReason (multipleFrom s)
          ++ ruleReason (receivedChain s)),
         (findingReason (dkimFinding s) ++ findingReason (dmarcFinding s)).
  split; [exact Hrun|]. split.
  - apply verdict_spoofed. unfold scoreOf.
    rewrite <- H3, <- Hspf, Hw. cbn [ruleWeight fst].
    pose proof (scoreOf_terms s). lia.
  - cbn [verdict Reasons]. unfold reasonsOf.
    rewrite <- H3, <- Hspf, Hr. cbn [ruleReason fst snd].
    repeat rewrite <- app_assoc. reflexivity.
Qed.

(** X12. When the resolver answers no lookup at all, every email with a
    From domain gets the verdict "spoofed": the SPF check and the DMARC
    check each report the failed lookup, which adds 3 and 2 to the score. *)
Theorem failed_lookups_are_spoofed (e : Email) (d : string) (t : Trace) :
  GetDomain (From e) = Some d → d ≠ "" →
  (∀ n name, resolver n name = None) →
  ∃ r t',
    Analyze standard e t = Some (r, t') ∧
    IsSpoofed r = true ∧
    "SPF lookup failed for domain " +:+ d ∈ Reasons r ∧
    "DMARC lookup failed for domain " +:+ d ∈ Reasons r.
Proof.
  intros Hd Hne Hfail.
  destruct (Analyze_signals e t) as (d' & s & Hs & Hrun).
  destruct Hs as (Hd' & _ & _ & _ & _ & _ & _ & Hauth).
  assert (d' = d) as -> by congruence.
  destruct Hauth as [[-> _]|(_ & Hspf & _ & Hdmarc)]; [now destruct Hne|].
  unfold detector.checkSPF, mbind, M_bind, detector.LookupTXT in Hspf.
  rewrite Hfail in Hspf. injection Hspf as Hspf.
  unfold detector.checkDMARC, mbind, M_bind, detector.LookupTXT in Hdmarc.
  cbv zeta in Hdmarc. rewrite Hfail in Hdmarc. injection Hdmarc as Hdmarc.
  assert (Hs1 : "SPF lookup failed for domain " +:+ d ≠ "") by discriminate.
  assert (Hs2 : "DMARC lookup failed for domain " +:+ d ≠ "") by discriminate.
  destruct (findingWeight_nonempty 3 _ Hs1) as [Hw1 Hr1].
  destruct (findingWeight_nonempty 2 _ Hs2) as [Hw2 Hr2].
  eexists. eexists. split; [exact Hrun|]. split; [|split].
  - apply verdict_spoofed. unfold scoreOf. rewrite <- Hspf, <- Hdmarc, Hw1, Hw2.
    pose proof (scoreOf_terms s). lia.
  - cbn [verdict Reasons]. unfold reasonsOf. rewrite <- Hspf, Hr1.
    rewrite !elem_of_app. do 6 right. left. left.
  - cbn [verdict Reasons]. unfold reasonsOf. rewrite <- Hdmarc, Hr2.
    rewrite !elem_of_app. do 8 right. left.
Qed.

(** X13. More than one value under the header "From" is enough for the
    verdict "spoofed", whatever else the email holds and whatever the DNS
    answers. *)
Theorem multiple_From_headers_are_spoofed (e : Email) (t : Trace) :
  (1 < length (GetAllHeaderValues e "From"))%nat →
  ∃ r t',
    Analyze standard e t = Some (r, t') ∧
    IsSpoofed r = true ∧
    "Email contains multiple From headers" ∈ Reasons r.
Proof.
  intros Hmany.
  destruct (Analyze_signals e t) as (d & s & Hs & Hrun).
  destruct Hs as (_ & _ & _ & _ & _ & H5 & _).
  unfold checkMultipleFromHeaders in H5.
  rewrite decide_True in H5 by assumption. injection H5 as H5.
  eexists. eexists. split; [exact Hrun|]. split.
  - apply verdict_spoofed. unfold scoreOf. rewrite <- H5. cbn [ruleWeight fst].
    pose proof (scoreOf_terms s). lia.
  - cbn [verdict Reasons]. unfold reasonsOf. rewrite <- H5. cbn [ruleReason fst snd].
    rewrite !elem_of_app. do 4 right. left. left.
Qed.

(** X14. For an email without a From domain the verdict is "spoofed"
    exactly when there is more than one value under the header "From": of
    the two rules that can still trigger, the Received rule alone stays
    under the threshold. *)
Theorem no_domain_verdict (e : Email) (t : Trace) :
  GetDomain (From e) = Some "" →
  ∃ r,
    Analyze standard e t = Some (r, t) ∧
    (IsSpoofed r = true ↔ (1 < length (GetAllHeaderValues e "From"))%nat).
Proof.
  intros Hd.
  destruct (checkMultipleFromHeaders_returns e) as [c5 H5].
  destruct (checkSuspiciousReceivedChain_returns mapUnicodeLower e) as [c6 H6].
  eexists. split;
    [exact (Analyze_without_domain resolver mapUnicodeLower rangeOrder e t c5 c6 Hd H5 H6)|].
  unfold checkMultipleFromHeaders in H5. unfold verdict. cbn [IsSpoofed].
  rewrite Z.leb_le. unfold ruleWeight.
  case_decide as Hmany; injection H5 as <-; cbn [fst]; destruct c6.1; split; lia.
Qed.

(** X15. No signal other than the duplicated From header decides alone: a
    result with the verdict "spoofed" has at least two reasons, or the one
    reason "Email contains multiple From headers". *)
Theorem one_reason_is_not_enough (e : Email) (t : Trace) :
  ∃ r t',
    Analyze standard e t = Some (r, t') ∧
    (IsSpoofed r = false
     ∨ (2 ≤ length (Reasons r))%nat
     ∨ Reasons r = ["Email contains multiple From headers"]).
Proof.
  destruct (Analyze_signals e t) as (d & s & Hs & Hrun).
  eexists. eexists. split; [exact Hrun|].
  destruct Hs as (_ & _ & _ & _ & _ & H5 & _).
  cbn [verdict IsSpoofed Reasons].
  destruct (5 <=? scoreOf s) eqn:Hge; [|now left]. right.
  apply Z.leb_le in Hge.
  destruct (decide (2 ≤ length (reasonsOf s))%nat) as [|Hfew]; [now left|right].
  unfold checkMultipleFromHeaders in H5.
  revert Hge Hfew. unfold scoreOf, reasonsOf. rewrite !length_app.
  destruct (ruleReason_length 3 (fromReplyTo s)) as [-> ?].
  destruct (ruleReason_length 3 (fromReturnPath s)) as [-> ?].
  destruct (ruleReason_length 2 (missingSPF s)) as [-> ?].
  destruct (ruleReason_length 4 (suspiciousFrom s)) as [-> ?].
  destruct (ruleReason_length 5 (multipleFrom s)) as [-> ?].
  destruct (ruleReason_length 2 (receivedChain s)) as [-> ?].
  destruct (findingReason_length 3 (spfFinding s)) as [-> ?].
  destruct (findingReason_length 3 (dkimFinding s)) as [-> ?].
  destruct (findingReason_length 2 (dmarcFinding s)) as [-> ?].
  intros Hge Hfew.
  assert (Hlen : ∀ l : list string, length l = 0%nat → l = [])
    by (intros l; apply length_zero_iff_nil).
  rewrite (Hlen (ruleReason (fromReplyTo s))) by lia.
  rewrite (Hlen (ruleReason (fromReturnPath s))) by lia.
  rewrite (Hlen (ruleReason (missingSPF s))) by lia.
  rewrite (Hlen (ruleReason (suspiciousFrom s))) by lia.
  rewrite (Hlen (ruleReason (receivedChain s))) by lia.
  rewrite (Hlen (findingReason (spfFinding s))) by lia.
  rewrite (Hlen (findingReason (dkimFinding s))) by lia.
  rewrite (Hlen (findingReason (dmarcFinding s))) by lia.
  assert (Hone : length (ruleReason (multipleFrom s)) = 1%nat) by lia.
  simpl. rewrite app_nil_r.
  case_decide; injection H5 as H5; rewrite <- H5 in *;
    [reflexivity|simpl in Hone; discriminate Hone].
Qed.

End MoreProperties.

(** ** The order in which the reference domains are ranged over *)

Lemma rangeCommonDomains_triggered (d : string) (keys : list string) :
  (rangeCommonDomains d keys).1 = existsb (lookalikeOf d) keys.
Proof.
  induction keys as [|key keys IH]; simpl; [reflexivity|].
  unfold lookalikeOf at 1. now destruct (_ && _).
Qed.

Lemma existsb_Permutation {A} (f : A → bool) (l l' : list A) :
  Permutation l l' → existsb f l = existsb f l'.
Proof.
  induction 1 as [|x l l' _ IH|x y l|l l' l'' _ IH1 _ IH2]; simpl.
  - reflexivity.
  - now rewrite IH.
  - now destruct (f x), (f y).
  - now rewrite IH1.
Qed.

Lemma checkSuspiciousFromDomain_order (order order' : list string) (e : Email)
    (c c' : bool * string) :
  Permutation order order' →
  checkSuspiciousFromDomain order e = Some c →
  checkSuspiciousFromDomain order' e = Some c' →
  c.1 = c'.1.
Proof.
  intros Hperm. unfold checkSuspiciousFromDomain.
  destruct (From e) as [a|]; [|now intros [= <-] [= <-]].
  destruct (GetDomain_returns (Some a)) as [d ->]. simpl.
  case_bool_decide; intros [= <-] [= <-]; [reflexivity|].
  rewrite !rangeCommonDomains_triggered. now apply existsb_Permutation.
Qed.

Section MapOrder.

Variable resolver : nat → string → option (list string).
Variable mapUnicodeLower : string → string.

(** X16. The order in which Go ranges over the map of the reference
    domains does not change the score, the verdict, the lookups or the
    number of reasons of the result of [Analyze]. *)
Theorem Analyze_map_order_independent (order order' : list string) (e : Email)
    (t : Trace) :
  Permutation order order' →
  ∃ (r r' : AnalysisResult) (t' : Trace),
    Analyze resolver (NewSpoofDetector resolver mapUnicodeLower order) e t = Some (r, t') ∧
    Analyze resolver (NewSpoofDetector resolver mapUnicodeLower order') e t = Some (r', t') ∧
    Score r = Score r' ∧
    IsSpoofed r = IsSpoofed r' ∧
    length (Reasons r) = length (Reasons r').
Proof.
  intros Hperm.
  destruct (Analyze_signals resolver mapUnicodeLower order e t) as (d & s & Hs & Hrun).
  destruct (Analyze_signals resolver mapUnicodeLower order' e t) as (d' & s' & Hs' & Hrun').
  destruct Hs as (Hd & H1 & H2 & [t1 H3] & H4 & H5 & H6 & Hauth).
  destruct Hs' as (Hd' & H1' & H2' & [t1' H3'] & H4' & H5' & H6' & Hauth').
  assert (d' = d) as -> by congruence.
  assert (E1 : fromReplyTo s' = fromReplyTo s) by congruence.
  assert (E2 : fromReturnPath s' = fromReturnPath s) by congruence.
  assert (E3 : missingSPF s' = missingSPF s) by congruence.
  assert (E4 : (suspiciousFrom s').1 = (suspiciousFrom s).1)
    by (symmetry; exact (checkSuspiciousFromDomain_order _ _ e _ _ Hperm H4 H4')).
  assert (E5 : multipleFrom s' = multipleFrom s) by congruence.
  assert (E6 : receivedChain s' = receivedChain s) by congruence.
  assert (E789 : spfFinding s' = spfFinding s ∧ dkimFinding s' = dkimFinding s
                 ∧ dmarcFinding s' = dmarcFinding s).
  { destruct Hauth as [(Hempty & -> & -> & ->)|(Hne & Hspf & Hdkim & Hdmarc)],
             Hauth' as [(Hempty' & -> & -> & ->)|(Hne' & Hspf' & Hdkim' & Hdmarc')];
      try contradiction; [auto|].
    repeat split; congruence. }
  destruct E789 as (E7 & E8 & E9).
  assert (Escore : scoreOf s' = scoreOf s).
  { unfold scoreOf. rewrite E1, E2, E3, E5, E6, E7, E8, E9.
    unfold ruleWeight. now rewrite E4. }
  assert (Elen : length (reasonsOf s') = length (reasonsOf s)).
  { unfold reasonsOf. rewrite E1, E2, E3, E5, E6, E7, E8, E9, !length_app.
    do 3 f_equal. unfold ruleReason. rewrite E4. now destruct (suspiciousFrom s).1. }
  eexists. eexists. eexists. split; [exact Hrun|]. split; [exact Hrun'|].
  cbn [verdict Score IsSpoofed Reasons]. now rewrite Escore, Elen.
Qed.

(** X18. An email from one of the reference domains themselves never
    triggers the rule "suspicious From domain": no reference domain is a
    lookalike of another one. *)
Theorem reference_domains_are_not_suspicious (order : list string) (e : Email)
    (d : string) :
  Permutation order commonDomains →
  GetDomain (From e) = Some d →
  d ∈ commonDomains →
  checkSuspiciousFromDomain order e = Some (false, "").
Proof.
  intros Hperm Hd Hin.
  assert (Hall : Forall (λ d, Forall (λ ref, d = ref ∨ isSimilarDomain d ref = false)
                                commonDomains) commonDomains) by by_evaluation.
  unfold checkSuspiciousFromDomain.
  destruct (From e) as [a|]; [|reflexivity]. rewrite Hd. simpl.
  case_bool_decide; [reflexivity|]. f_equal.
  apply rangeCommonDomains_none. intros ref Href. rewrite Hperm in Href.
  rewrite Forall_forall in Hall. specialize (Hall d Hin).
  rewrite Forall_forall in Hall. now apply Hall.
Qed.

End MapOrder.

(** X17. The reason the rule "suspicious From domain" gives does depend on
    that order: for a From domain that is a lookalike of two reference
    domains, two orders of the same keys name different domains. *)
Theorem lookalike_reason_depends_on_map_order :
  ∃ resolver mapUnicodeLower (order order' : list string) (e : Email) r r' t',
    Permutation order commonDomains ∧ Permutation order' commonDomains ∧
    Analyze resolver (NewSpoofDetector resolver mapUnicodeLower order) e [] = Some (r, t') ∧
    Analyze resolver (NewSpoofDetector resolver mapUnicodeLower order') e [] = Some (r', t') ∧
    Reasons r = ["From domain (gmailcom-yahoocom.example) looks similar to gmail.com"] ∧
    Reasons r' = ["From domain (gmailcom-yahoocom.example) looks similar to yahoo.com"].
Proof.
  exists (zoneResolver (strictZone "gmailcom-yahoocom.example")), asciiOnly,
         commonDomains, (rev commonDomains), twoLookalikesMail.
  eexists. eexists. eexists.
  split; [apply Permutation_refl|].
  split; [apply Permutation_sym, Permutation_rev|].
  split; [vm_compute; reflexivity|].
  split; [vm_compute; reflexivity|].
  split; reflexivity.
Qed.

(** ** A domain compared with itself *)

Lemma append_length (s1 s2 : string) :
  String.length (s1 +:+ s2) = (String.length s1 + String.length s2)%nat.
Proof. induction s1 as [|c s1 IH]; simpl; [reflexivity|now rewrite IH]. Qed.

Lemma HasPrefix_byte (c a : ascii) (s : string) :
  strings.HasPrefix (String a s) (String c "") = Ascii.eqb a c.
Proof.
  unfold strings.HasPrefix. simpl.
  destruct (ascii_dec c a) as [->|Hne].
  - rewrite Ascii.eqb_refl. now destruct s.
  - symmetry. apply Ascii.eqb_neq. congruence.
Qed.

(** Replacing the first [c] leaves exactly the strings without [c] as they
    are, when what is put in is not [c] itself. *)
Lemma Replace1_byte_unchanged (s new : string) (c : ascii) :
  (∀ rest, new +:+ rest ≠ String c rest) →
  strings.Replace1 s (String c "") new = s ↔ without c s.
Proof.
  intros Hnew. unfold without. induction s as [|a s IH].
  - simpl. split; reflexivity.
  - cbn [strings.Replace1 strings.Count]. rewrite HasPrefix_byte.
    destruct (Ascii.eqb a c) eqn:Hac.
    + apply Ascii.eqb_eq in Hac as ->. cbn [strings.skip String.length].
      split; [intros H; now apply Hnew in H|discriminate].
    + rewrite Nat.add_0_l, <- IH. split; [now intros [= ?]|now intros ->].
Qed.

Lemma string_not_longer (s extra : string) :
  extra ≠ "" → extra +:+ s ≠ s ∧ s +:+ extra ≠ s.
Proof.
  intros Hextra.
  assert (0 < String.length extra)%nat by (destruct extra; [congruence|simpl; lia]).
  split; intros Heq; apply (f_equal String.length) in Heq;
    rewrite append_length in Heq; lia.
Qed.

(** X19. A domain is "similar" to itself, for [isSimilarDomain], exactly
    when it holds no "." or no "m": the first test excludes equal domains,
    the list of transforms does not, and a transform that finds nothing to
    replace is the domain itself.  (The rule that calls it tests the two
    domains for difference first.) *)
Theorem isSimilarDomain_reflexive_iff (d : string) :
  isSimilarDomain d d = true ↔ without "." d ∨ without "m" d.
Proof.
  rewrite isSimilarDomain_spec. unfold typosOf.
  assert (Hdash : strings.Replace1 d "." "-" = d ↔ without "." d).
  { apply Replace1_byte_unchanged. intros rest Heq. simpl in Heq. discriminate Heq. }
  assert (Hgone : strings.Replace1 d "." "" = d ↔ without "." d).
  { apply Replace1_byte_unchanged. intros rest Heq. simpl in Heq.
    apply (f_equal String.length) in Heq. rewrite append_length in Heq.
    simpl in Heq. lia. }
  assert (Hrn : strings.Replace1 d "m" "rn" = d ↔ without "m" d).
  { apply Replace1_byte_unchanged. intros rest Heq. simpl in Heq. discriminate Heq. }
  destruct (string_not_longer d "mail-") as [Hmail _]; [discriminate|].
  destruct (string_not_longer d "-secure") as [_ Hsecure]; [discriminate|].
  rewrite !elem_of_cons, elem_of_nil.
  split.
  - intros [[Hne _]|[H|[H|[H|[H|[H|[]]]]]]].
    + now destruct Hne.
    + left. now apply Hdash.
    + left. now apply Hgone.
    + now destruct Hmail.
    + now destruct Hsecure.
    + right. now apply Hrn.
  - intros [H|H]; right.
    + left. symmetry. now apply Hdash.
    + do 4 right. left. symmetry. now apply Hrn.
Qed.

(** ** The Received chain *)

Lemma firstPattern_found_iff (header : string) (patterns : list string) :
  (∃ pattern, firstPattern header patterns = Some pattern) ↔
  ∃ pattern, pattern ∈ patterns ∧ strings.Contains header pattern = true.
Proof.
  induction patterns as [|p rest IH]; simpl.
  - split; [intros [? [=]]|intros (? & Hin & _); inversion Hin].
  - destruct (strings.Contains header p) eqn:Hp.
    + split; [intros _; exists p; split; [left|assumption]|eauto].
    + rewrite IH. split.
      * intros (q & Hin & Hq). exists q. split; [now right|assumption].
      * intros (q & Hin & Hq). inversion Hin; subst; [congruence|eauto].
Qed.

Lemma scanReceived_triggered_iff (mapUnicodeLower : string → string)
    (receivedHeaders : list string) :
  (scanReceived mapUnicodeLower receivedHeaders).1 = true ↔
  ∃ header, header ∈ receivedHeaders ∧ suspiciousHeader mapUnicodeLower header.
Proof.
  unfold suspiciousHeader.
  induction receivedHeaders as [|h rest IH]; cbn [scanReceived].
  - split; [discriminate|intros (? & Hin & _); inversion Hin].
  - destruct (firstPattern _ suspiciousPatterns) as [p|] eqn:Hfirst.
    + split; [intros _|reflexivity].
      exists h. split; [left|]. apply firstPattern_found_iff. eauto.
    + rewrite IH. split.
      * intros (h' & Hin & Hh'). exists h'. split; [now right|assumption].
      * intros (h' & Hin & Hh'). inversion Hin; subst; [|eauto].
        apply firstPattern_found_iff in Hh' as [p Hp]. congruence.
Qed.

(** X20. The rule "suspicious Received chain" triggers exactly when the
    email has no Received header (the key is missing or holds no value) or
    one of its Received headers, lowered, contains one of the six patterns;
    so the order of the headers has no part in it. *)
Theorem Received_rule_triggers_iff (mapUnicodeLower : string → string) (e : Email) :
  ∃ c,
    checkSuspiciousReceivedChain mapUnicodeLower e = Some c ∧
    (c.1 = true ↔
     GetAllHeaderValues e "Received" = []
     ∨ ∃ header, header ∈ GetAllHeaderValues e "Received" ∧
                 suspiciousHeader mapUnicodeLower header).
Proof.
  unfold checkSuspiciousReceivedChain.
  case_decide as Hlen; eexists; (split; [reflexivity|]); cbn [fst].
  - split; [intros _; left|reflexivity]. now apply length_zero_iff_nil.
  - rewrite scanReceived_triggered_iff. split; [now right|].
    intros [Hnil|H]; [|assumption]. rewrite Hnil in Hlen. now destruct Hlen.
Qed.

Lemma prefix_empty (s : string) : String.prefix "" s = true.
Proof. now destruct s. Qed.

Lemma HasPrefix_lowerASCII (s pre : string) :
  strings.HasPrefix s pre = true →
  strings.HasPrefix (strings.lowerASCII s) (strings.lowerASCII pre) = true.
Proof.
  unfold strings.HasPrefix. revert s. induction pre as [|c pre IH]; intros s.
  - intros _. apply prefix_empty.
  - destruct s as [|a s]; simpl; [discriminate|].
    destruct (ascii_dec c a) as [->|]; [|discriminate].
    intros H. destruct (ascii_dec _ _); [now apply IH|congruence].
Qed.

Lemma Contains_lowerASCII (s substr : string) :
  strings.Contains s substr = true →
  strings.Contains (strings.lowerASCII s) (strings.lowerASCII substr) = true.
Proof.
  induction s as [|a s IH]; cbn [strings.Contains strings.lowerASCII].
  - rewrite !orb_false_r. apply (HasPrefix_lowerASCII "").
  - intros [H|H]%orb_true_iff; apply orb_true_iff.
    + left. apply (HasPrefix_lowerASCII (String a s)), H.
    + right. now apply IH.
Qed.

(** X21. A Received header of ASCII bytes that contains one of the six
    patterns as it is written triggers the rule: lowering the header before
    the search loses no match (and adds those written in upper case). *)
Theorem Received_pattern_survives_lowering (mapUnicodeLower : string → string)
    (e : Email) (header pattern : string) :
  header ∈ GetAllHeaderValues e "Received" →
  strings.isASCII header = true →
  pattern ∈ suspiciousPatterns →
  strings.Contains header pattern = true →
  ∃ reason, checkSuspiciousReceivedChain mapUnicodeLower e = Some (true, reason).
Proof.
  intros Hin Hascii Hpat Hcontains.
  assert (Hfixed : Forall (λ p, strings.lowerASCII p = p) suspiciousPatterns)
    by by_evaluation.
  rewrite Forall_forall in Hfixed.
  assert (Hscan : (scanReceived mapUnicodeLower (GetAllHeaderValues e "Received")).1 = true).
  { apply scanReceived_triggered_iff. exists header. split; [assumption|].
    exists pattern. split; [assumption|].
    unfold strings.ToLower. rewrite Hascii, <- (Hfixed pattern Hpat).
    now apply Contains_lowerASCII. }
  unfold checkSuspiciousReceivedChain. case_decide; [eauto|].
  destruct (scanReceived _ _) as [triggered reason]. simpl in Hscan. subst. eauto.
Qed.

(** ** When the other structural rules trigger *)

(** X22. The two mismatch rules trigger exactly when the From domain and
    the other domain, both as [GetDomain] extracts them, are not empty and
    differ; for the Return-Path the other domain is the one [GetDomain]
    gives for an address made of the Return-Path string.  A nil address, a
    missing Return-Path and a string without exactly one "@" all count as
    an empty domain, and none of the two rules panics. *)
Theorem mismatch_rules_compare_domains (e : Email) :
  (∃ c, checkFromReplyToDomainMismatch e = Some c ∧
        (c.1 = true ↔
         ∃ d d', GetDomain (From e) = Some d ∧ GetDomain (ReplyTo e) = Some d' ∧
                 d ≠ "" ∧ d' ≠ "" ∧ d ≠ d')) ∧
  (∃ c, checkFromReturnPathDomainMismatch e = Some c ∧
        (c.1 = true ↔
         ∃ d d', GetDomain (From e) = Some d ∧
                 GetDomain (Some (mkAddress "" (ReturnPath e))) = Some d' ∧
                 d ≠ "" ∧ d' ≠ "" ∧ d ≠ d')).
Proof.
  assert (Hcond : ∀ d d' : string,
             bool_decide (d ≠ "") && bool_decide (d' ≠ "") && bool_decide (d ≠ d') = true
             ↔ d ≠ "" ∧ d' ≠ "" ∧ d ≠ d').
  { intros d d'. rewrite !andb_true_iff, !bool_decide_eq_true. tauto. }
  assert (Hnil : ∀ d : string, Some "" = Some d → d ≠ "" → False) by (intros d [= <-]; auto).
  split.
  - unfold checkFromReplyToDomainMismatch.
    destruct (From e) as [a|], (ReplyTo e) as [b|].
    2-4: exists (false, ""); split; [reflexivity|]; split; [discriminate|];
         intros (d & d' & H1 & H2 & Hd & Hd' & _); simpl in H1, H2; eauto.
    destruct (GetDomain_returns (Some a)) as [d Hd], (GetDomain_returns (Some b)) as [d' Hd'].
    rewrite Hd, Hd'. cbn [mbind option_bind].
    destruct (_ && _) eqn:Hc; eexists; (split; [reflexivity|]); cbn [fst].
    + split; [intros _|reflexivity]. exists d, d'. apply Hcond in Hc. tauto.
    + split; [discriminate|]. intros (x & x' & [= <-] & [= <-] & H).
      apply Hcond in H. congruence.
  - unfold checkFromReturnPathDomainMismatch.
    destruct (From e) as [a|]; cycle 1.
    { exists (false, ""). split; [reflexivity|]. split; [discriminate|].
      intros (d & d' & H1 & _ & Hd & _). simpl in H1. eauto. }
    case_bool_decide as Hrp.
    { exists (false, ""). split; [reflexivity|]. split; [discriminate|].
      intros (d & d' & _ & H2 & _ & Hd' & _). rewrite Hrp in H2. simpl in H2. eauto. }
    destruct (GetDomain_returns (Some a)) as [d Hd]. rewrite Hd. cbn [mbind option_bind].
    case_decide as Hlen.
    { exists (false, ""). split; [reflexivity|]. split; [discriminate|].
      intros (x & d' & _ & H2 & _ & Hd' & _).
      unfold GetDomain in H2. cbn [Addr] in H2. cbv zeta in H2.
      rewrite decide_True in H2 by assumption. eauto. }
    destruct (index_in_range (strings.Split (ReturnPath e) "@") 1) as [d' Hd']; [lia|].
    assert (Hrpd : GetDomain (Some (mkAddress "" (ReturnPath e))) = Some d').
    { unfold GetDomain. cbn [Addr]. cbv zeta.
      now rewrite decide_False by (intros Hn; now apply Hn). }
    rewrite Hd', Hrpd. cbn [mbind option_bind].
    destruct (_ && _) eqn:Hc; eexists; (split; [reflexivity|]); cbn [fst].
    + split; [intros _|reflexivity]. exists d, d'. apply Hcond in Hc. tauto.
    + split; [discriminate|]. intros (x & x' & [= <-] & [= <-] & H).
      apply Hcond in H. congruence.
Qed.

Section RuleTriggers.

Variable resolver : nat → string → option (list string).

Lemma hasSPFRecord_false_iff (txtRecords : list string) :
  hasSPFRecord txtRecords = false ↔
  Forall (λ r, strings.HasPrefix r "v=spf1" = false) txtRecords.
Proof.
  induction txtRecords as [|r rest IH]; simpl.
  - split; [constructor|reflexivity].
  - destruct (strings.HasPrefix r "v=spf1") eqn:Hr.
    + split; [discriminate|]. intros H. inversion H. congruence.
    + rewrite IH. split; [now constructor|]. intros H. now inversion H.
Qed.

(** X23. The rule "missing SPF" triggers exactly when the email has a From
    domain, the lookup of that domain succeeds and no record of the answer
    starts with "v=spf1"; it looks the domain up once, and not at all
    without a From domain.  A failed lookup does not trigger it. *)
Theorem checkMissingSPF_triggers_iff (e : Email) (t : Trace) :
  ∃ d c,
    GetDomain (From e) = Some d ∧
    checkMissingSPF resolver e t
      = Some (c, t ++ (if decide (d = "") then [] else [d])) ∧
    (c.1 = true ↔
     d ≠ "" ∧ ∃ txtRecords,
       resolver (length t) d = Some txtRecords ∧
       Forall (λ r, strings.HasPrefix r "v=spf1" = false) txtRecords).
Proof.
  destruct (GetDomain_returns (From e)) as [d Hd]. exists d.
  case_decide as Hempty.
  - subst d. exists (false, ""). split; [assumption|].
    rewrite app_nil_r. split; [now apply checkMissingSPF_no_domain|].
    split; [discriminate|]. now intros [Hne _].
  - eexists. split; [assumption|].
    split; [exact (checkMissingSPF_domain resolver e d t Hd Hempty)|].
    destruct (resolver (length t) d) as [txtRecords|]; cycle 1.
    { split; [discriminate|]. intros (_ & ? & [=] & _). }
    destruct (hasSPFRecord txtRecords) eqn:Hhas; cbn [fst].
    + split; [discriminate|]. intros (_ & ? & [= <-] & Hnone).
      apply hasSPFRecord_false_iff in Hnone. congruence.
    + split; [intros _|reflexivity]. split; [assumption|].
      exists txtRecords. split; [reflexivity|]. now apply hasSPFRecord_false_iff.
Qed.

End RuleTriggers.

(** X24. With the keys of the map ranged over in any order, the rule
    "suspicious From domain" triggers exactly when the From domain differs
    from some reference domain and contains that domain with its first "."
    removed or equals one of its five transforms. *)
Theorem checkSuspiciousFromDomain_triggers_iff (order : list string) (e : Email)
    (d : string) :
  Permutation order commonDomains →
  GetDomain (From e) = Some d → d ≠ "" →
  ∃ c,
    checkSuspiciousFromDomain order e = Some c ∧
    (c.1 = true ↔
     ∃ ref, ref ∈ commonDomains ∧ d ≠ ref ∧
            (strings.Contains d (strings.Replace1 ref "." "") = true
             ∨ d ∈ typosOf ref)).
Proof.
  intros Hperm Hd Hne. unfold checkSuspiciousFromDomain.
  destruct (GetDomain_nonempty_From _ _ Hd Hne) as [a Ha]. rewrite Ha, <- Ha, Hd.
  cbn [mbind option_bind]. rewrite bool_decide_eq_false_2 by assumption.
  eexists. split; [reflexivity|].
  rewrite rangeCommonDomains_triggered, (existsb_Permutation _ _ _ Hperm).
  rewrite existsb_exists. unfold lookalikeOf. split.
  - intros (ref & Hin & Href). apply andb_true_iff in Href as [Hdiff Hsim].
    apply bool_decide_eq_true in Hdiff. apply isSimilarDomain_spec in Hsim.
    exists ref. split; [now apply list_elem_of_In|]. split; [assumption|].
    destruct Hsim as [[_ ?]|?]; auto.
  - intros (ref & Hin & Hdiff & Hsim). exists ref.
    split; [now apply list_elem_of_In|].
    apply andb_true_iff. split; [now apply bool_decide_eq_true|].
    apply isSimilarDomain_spec. destruct Hsim; auto.
Qed.

(** ** The loop over the rules, for any rules *)

(** X25. Whatever the rules are, the loop over them only appends: the
    reasons of the result it started from stay in front, at most one reason
    is added for each rule, and the verdict field is not touched. *)
Theorem applyRules_appends (rs : list Rule) (e : Email) (result result' : AnalysisResult)
    (t t' : Trace) :
  applyRules rs e result t = Some (result', t') →
  ∃ added,
    Reasons result' = Reasons result ++ added ∧
    (length added ≤ length rs)%nat ∧
    IsSpoofed result' = IsSpoofed result.
Proof.
  revert result t. induction rs as [|r rs IH]; intros result t; simpl.
  - intros [= <- _]. exists []. rewrite app_nil_r. auto.
  - unfold mbind, M_bind.
    destruct (CheckFunc r e t) as [[[triggered reason] t1]|]; [|discriminate].
    intros Hrun. destruct (IH _ _ Hrun) as (added & Hreasons & Hlen & Hsp).
    destruct triggered; simpl in *.
    + exists (reason :: added). rewrite Hreasons, <- app_assoc. simpl.
      split; [reflexivity|]. split; [lia|assumption].
    + exists added. split; [assumption|]. split; [lia|assumption].
Qed.

(** ** The further theorems at sample inputs *)

Lemma checkDMARC_findings_witness :
  strings.Contains "v=DMARC1; p=quarantine; sp=none" "p=none" = true ∧
  checkDMARC (zoneResolver quarantineZone) (cleanMail "example.com") "example.com" []
    = Some ("", ["_dmarc.example.com"]).
Proof.
  split; [reflexivity|].
  refine (proj1 (proj2 (proj2 (proj2 (checkDMARC_findings
            (zoneResolver quarantineZone) (cleanMail "example.com") "example.com" []))
            ["v=DMARC1; p=quarantine; sp=none"] "v=DMARC1; p=quarantine; sp=none" _ _))
            _ _).
  - reflexivity.
  - exists [], []. split; [reflexivity|]. split; [constructor|reflexivity].
  - reflexivity.
  - reflexivity.
Defined.

Lemma missing_SPF_record_is_spoofed_witness :
  ∃ r t' before between after,
    Analyze (zoneResolver noSPFZone)
      (NewSpoofDetector (zoneResolver noSPFZone) asciiOnly commonDomains)
      (cleanMail "example.com") [] = Some (r, t') ∧
    IsSpoofed r = true ∧
    Reasons r = before ++ ["Domain example.com doesn't have an SPF record"]
                ++ between ++ ["Domain example.com doesn't have an SPF record"]
                ++ after.
Proof.
  apply (missing_SPF_record_is_spoofed (zoneResolver noSPFZone) asciiOnly commonDomains
           (cleanMail "example.com") "example.com" []
           ["google-site-verification=abc123"] ["google-site-verification=abc123"]).
  - reflexivity.
  - discriminate.
  - reflexivity.
  - reflexivity.
  - constructor; [reflexivity|constructor].
  - constructor; [reflexivity|constructor].
Defined.

Lemma failed_lookups_are_spoofed_witness :
  ∃ r t',
    Analyze failingResolver (NewSpoofDetector failingResolver asciiOnly commonDomains)
      (cleanMail "example.com") [] = Some (r, t') ∧
    IsSpoofed r = true ∧
    "SPF lookup failed for domain example.com" ∈ Reasons r ∧
    "DMARC lookup failed for domain example.com" ∈ Reasons r.
Proof.
  apply (failed_lookups_are_spoofed failingResolver asciiOnly commonDomains
           (cleanMail "example.com") "example.com" []).
  - reflexivity.
  - discriminate.
  - reflexivity.
Defined.

Lemma multiple_From_headers_are_spoofed_witness :
  ∃ r t',
    Analyze (zoneResolver (strictZone "example.com"))
      (NewSpoofDetector (zoneResolver (strictZone "example.com")) asciiOnly commonDomains)
      twoFromsMail [] = Some (r, t') ∧
    IsSpoofed r = true ∧
    "Email contains multiple From headers" ∈ Reasons r.
Proof.
  apply (multiple_From_headers_are_spoofed
           (zoneResolver (strictZone "example.com")) asciiOnly commonDomains
           twoFromsMail []).
  vm_compute. lia.
Defined.

Lemma no_domain_verdict_witness :
  ∃ r,
    Analyze failingResolver (NewSpoofDetector failingResolver asciiOnly commonDomains)
      twoFromsMail [] = Some (r, []) ∧
    (IsSpoofed r = true ↔ (1 < length (GetAllHeaderValues twoFromsMail "From"))%nat).
Proof.
  apply (no_domain_verdict failingResolver asciiOnly commonDomains twoFromsMail []).
  reflexivity.
Defined.

Lemma Analyze_map_order_independent_witness :
  ∃ (r r' : AnalysisResult) (t' : Trace),
    Analyze (zoneResolver (strictZone "gmailcom-yahoocom.example"))
      (NewSpoofDetector (zoneResolver (strictZone "gmailcom-yahoocom.example"))
                        asciiOnly commonDomains)
      twoLookalikesMail [] = Some (r, t') ∧
    Analyze (zoneResolver (strictZone "gmailcom-yahoocom.example"))
      (NewSpoofDetector (zoneResolver (strictZone "gmailcom-yahoocom.example"))
                        asciiOnly (rev commonDomains))
      twoLookalikesMail [] = Some (r', t') ∧
    Score r = Score r' ∧
    IsSpoofed r = IsSpoofed r' ∧
    length (Reasons r) = length (Reasons r').
Proof.
  apply (Analyze_map_order_independent
           (zoneResolver (strictZone "gmailcom-yahoocom.example")) asciiOnly
           commonDomains (rev commonDomains) twoLookalikesMail []).
  apply Permutation_rev.
Defined.

Lemma reference_domains_are_not_suspicious_witness :
  checkSuspiciousFromDomain (rev commonDomains) (cleanMail "gmail.com") = Some (false, "").
Proof.
  apply (reference_domains_are_not_suspicious (rev commonDomains)
           (cleanMail "gmail.com") "gmail.com").
  - apply Permutation_sym, Permutation_rev.
  - reflexivity.
  - left.
Defined.

Lemma Received_pattern_survives_lowering_witness :
  ∃ reason, checkSuspiciousReceivedChain asciiOnly unknownHostMail = Some (true, reason).
Proof.
  apply (Received_pattern_survives_lowering asciiOnly unknownHostMail
           "from unknown (HELO mail) by mx.example.org" "unknown").
  - vm_compute. left.
  - reflexivity.
  - left.
  - reflexivity.
Defined.

Lemma checkSuspiciousFromDomain_triggers_iff_witness :
  ∃ c,
    checkSuspiciousFromDomain commonDomains (cleanMail "mail-paypal.com") = Some c ∧
    (c.1 = true ↔
     ∃ ref, ref ∈ commonDomains ∧ "mail-paypal.com" ≠ ref ∧
            (strings.Contains "mail-paypal.com" (strings.Replace1 ref "." "") = true
             ∨ "mail-paypal.com" ∈ typosOf ref)).
Proof.
  apply (checkSuspiciousFromDomain_triggers_iff commonDomains
           (cleanMail "mail-paypal.com") "mail-paypal.com").
  - apply Permutation_refl.
  - reflexivity.
  - discriminate.
Defined.

Lemma applyRules_appends_witness :
  ∃ added,
    ["Email contains multiple From headers"] = [] ++ added ∧
    (length added ≤ 6)%nat ∧
    false = false.
Proof.
  apply (applyRules_appends (Rules failingResolver asciiOnly commonDomains) twoFromsMail
           {| IsSpoofed := false; Reasons := []; Score := 0 |}
           {| IsSpoofed := false;
              Reasons := ["Email contains multiple From headers"];
              Score := 5 |} [] []).
  vm_compute. reflexivity.
Defined.

Lemma Analyze_score_order_independent_witness :
  ∃ (r r' : AnalysisResult) (t' : Trace) (d : string) (s : Signals),
    Analyze (zoneResolver noSPFZone)
      (mkSpoofDetector (rev (Rules (zoneResolver noSPFZone) asciiOnly commonDomains)))
      replyElsewhereMail [] = Some (r, t') ∧
    Analyze (zoneResolver noSPFZone)
      (NewSpoofDetector (zoneResolver noSPFZone) asciiOnly commonDomains)
      replyElsewhereMail [] = Some (r', t') ∧
    signalsOf (zoneResolver noSPFZone) asciiOnly commonDomains replyElsewhereMail [] d s ∧
    Score r = scoreOf s ∧
    Score r = Score r' ∧
    IsSpoofed r = IsSpoofed r' ∧
    Score r = 8 ∧
    Reasons r = ["Domain example.com doesn't have an SPF record";
                 "From domain (example.com) doesn't match Reply-To domain (example.org)";
                 "Domain example.com doesn't have an SPF record"] ∧
    Reasons r' = ["From domain (example.com) doesn't match Reply-To domain (example.org)";
                  "Domain example.com doesn't have an SPF record";
                  "Domain example.com doesn't have an SPF record"].
Proof.
  destruct (Analyze_score_order_independent
              (zoneResolver noSPFZone) asciiOnly commonDomains
              (rev (Rules (zoneResolver noSPFZone) asciiOnly commonDomains))
              replyElsewhereMail [])
    as (r & r' & t' & d & s & Hrun & Hstd & Hs & Hsum & Hsame & Hverdict).
  - apply Permutation_sym, Permutation_rev.
  - exists r, r', t', d, s.
    do 6 (split; [assumption|]).
    vm_compute in Hrun. vm_compute in Hstd.
    injection Hrun as <- _. injection Hstd as <- _.
    split; [reflexivity|]. split; reflexivity.
Defined.
